(** * ADXL345 register access over I2C and SPI

    A shallow embedding of [ADXL345.cpp]: the constructor and the three
    register primitives [writeReg], [readReg] and [readRegs], run against a
    simulated board (Wire and SPI masters, GPIO pins, RAM) with one
    simulated ADXL345 attached to both buses.

    The driver's methods are written in a state monad over the handle and
    the board, call by call as in the source.  The board is a model of the
    Arduino calls the driver makes; its device keeps a register file and
    decodes the bus the way the driver encodes it: on I2C a register
    address byte followed by data, on SPI a command byte whose bit 7 asks
    for a read and whose bit 6 asks for several bytes. *)

From Stdlib Require Import ZArith List Bool Lia.
From stdpp Require Import base gmap list.

Local Open Scope Z_scope.

(** ** Machine integers *)

(** Conversion to [uint8_t]. *)
Definition u8 (x : Z) : Z := x mod 256.

Definition is_u8 (x : Z) : Prop := 0 <= x < 256.

(** ** Declarations of ADXL345.h and of the Arduino core *)

(** Modelled from the spec: the header ADXL345.h, which declares the
    enumeration [ADXL345_COMM_t], is absent; section 3 of the specification
    gives its enumerators ("enumerated: I2C, SPI").  [ADXL345_COMM_other]
    stands for a stored value that is neither enumerator. *)
Inductive ADXL345_COMM_t : Type :=
| ADXL345_COMM_SPI
| ADXL345_COMM_I2C
| ADXL345_COMM_other (raw : Z).

Definition comm_eqb (x y : ADXL345_COMM_t) : bool :=
  match x, y with
  | ADXL345_COMM_SPI, ADXL345_COMM_SPI => true
  | ADXL345_COMM_I2C, ADXL345_COMM_I2C => true
  | ADXL345_COMM_other a, ADXL345_COMM_other b => a =? b
  | _, _ => false
  end.

(** The fields of class [ADXL345] that ADXL345.cpp reads and writes; both
    are [uint8_t]-sized values in the source. *)
Record ADXL345 : Type := mkADXL345 {
  communicationType : ADXL345_COMM_t;
  _csPin : Z
}.

Inductive Level : Type := LOW | HIGH.
Inductive PinMode : Type := INPUT | OUTPUT.

Definition SPI_MODE3 : Z := 0x0C.
Definition NULL : Z := 0.

Definition ADXL345_I2C_ADDRESS : Z := 0x53.

(** ** The simulated bus *)

(** What the simulated board records, oldest event first.  An I2C write
    transaction is recorded when [Wire.endTransmission] puts the queued
    bytes on the wires. *)
Inductive BusEvent : Type :=
| EvWireBegin
| EvSpiBegin
| EvSpiDataMode (mode : Z)
| EvPinMode (pin : Z) (m : PinMode)
| EvPin (pin : Z) (l : Level)
| EvI2cWrite (addr : Z) (payload : list Z) (stop : bool)
| EvI2cRead (addr : Z) (quantity : Z) (stop : bool)
| EvSpi (mosi : Z).

(** The SPI side of the simulated device.  The first byte clocked in after
    chip-select falls is the command: bit 7 selects a read, bit 6 the
    multiple-byte mode, bits 5..0 the register. *)
Inductive SpiPhase : Type :=
| SpiDeselected
| SpiCommand
| SpiData (rd mb : bool) (ptr : Z).

Record World : Type := mkWorld {
  regs : gmap Z Z;          (* register file of the device *)
  i2c_ptr : Z;              (* register pointer of its I2C side *)
  spi_cs : Z;               (* pin its chip-select input is wired to *)
  spi_phase : SpiPhase;
  pins : gmap Z Level;      (* levels driven by digitalWrite *)
  wire_txaddr : Z;          (* Wire: target of the queued transmission *)
  wire_tx : list Z;         (* Wire: queued bytes *)
  wire_rx : list Z;         (* Wire: received bytes not yet read *)
  mem : gmap Z Z;           (* RAM holding the callers' buffers *)
  junk : Z;                 (* content of an uninitialised stack slot *)
  bus : list BusEvent
}.

(** Reading a register gives its eight bits; a register never written
    reads as zero. *)
Definition reg_get (r : gmap Z Z) (a : Z) : Z := u8 (default 0 (r !! a)).

Definition log (e : BusEvent) (w : World) : World :=
  mkWorld (regs w) (i2c_ptr w) (spi_cs w) (spi_phase w) (pins w)
          (wire_txaddr w) (wire_tx w) (wire_rx w) (mem w) (junk w)
          (bus w ++ [e]).

Definition set_device (r : gmap Z Z) (p : Z) (w : World) : World :=
  mkWorld r p (spi_cs w) (spi_phase w) (pins w)
          (wire_txaddr w) (wire_tx w) (wire_rx w) (mem w) (junk w) (bus w).

Definition set_spi (r : gmap Z Z) (ph : SpiPhase) (w : World) : World :=
  mkWorld r (i2c_ptr w) (spi_cs w) ph (pins w)
          (wire_txaddr w) (wire_tx w) (wire_rx w) (mem w) (junk w) (bus w).

Definition set_pins (ps : gmap Z Level) (w : World) : World :=
  mkWorld (regs w) (i2c_ptr w) (spi_cs w) (spi_phase w) ps
          (wire_txaddr w) (wire_tx w) (wire_rx w) (mem w) (junk w) (bus w).

Definition set_wire_tx (a : Z) (q : list Z) (w : World) : World :=
  mkWorld (regs w) (i2c_ptr w) (spi_cs w) (spi_phase w) (pins w)
          a q (wire_rx w) (mem w) (junk w) (bus w).

Definition set_wire_rx (q : list Z) (w : World) : World :=
  mkWorld (regs w) (i2c_ptr w) (spi_cs w) (spi_phase w) (pins w)
          (wire_txaddr w) (wire_tx w) q (mem w) (junk w) (bus w).

Definition set_mem (m : gmap Z Z) (w : World) : World :=
  mkWorld (regs w) (i2c_ptr w) (spi_cs w) (spi_phase w) (pins w)
          (wire_txaddr w) (wire_tx w) (wire_rx w) m (junk w) (bus w).

(** *** The device on the I2C bus *)

(** The first byte of a write transaction sets the register pointer; each
    byte after it is stored at the pointer, which then moves on. *)
Fixpoint i2c_store (data : list Z) (ptr : Z) (r : gmap Z Z) : gmap Z Z :=
  match data with
  | [] => r
  | b :: rest => i2c_store rest (u8 (ptr + 1)) (<[ptr := b]> r)
  end.

Fixpoint i2c_advance (n : nat) (ptr : Z) : Z :=
  match n with
  | O => ptr
  | S n' => i2c_advance n' (u8 (ptr + 1))
  end.

Definition i2c_device_write (payload : list Z) (w : World) : World :=
  match payload with
  | [] => w
  | a :: data =>
      set_device (i2c_store data a (regs w)) (i2c_advance (length data) a) w
  end.

(** A read transaction returns the registers from the pointer on. *)
Fixpoint i2c_fetch (n : nat) (ptr : Z) (r : gmap Z Z) : list Z :=
  match n with
  | O => []
  | S n' => reg_get r ptr :: i2c_fetch n' (u8 (ptr + 1)) r
  end.

(** *** The device on the SPI bus *)

(** A falling edge on chip-select opens a transaction, a high level closes
    it. *)
Definition spi_select (pin : Z) (l : Level) (w : World) : World :=
  if pin =? spi_cs w then
    match l, spi_phase w with
    | HIGH, _ => set_spi (regs w) SpiDeselected w
    | LOW, SpiDeselected => set_spi (regs w) SpiCommand w
    | LOW, _ => w
    end
  else w.

Definition spi_next (mb : bool) (ptr : Z) : Z :=
  if mb then (ptr + 1) mod 64 else ptr.

(** The byte the device shifts out while the master shifts one in. *)
Definition spi_miso (w : World) : Z :=
  match spi_phase w with
  | SpiData true _ ptr => reg_get (regs w) ptr
  | _ => 0
  end.

(** The device after the master has shifted [mosi] in. *)
Definition spi_shift (mosi : Z) (w : World) : World :=
  match spi_phase w with
  | SpiDeselected => w
  | SpiCommand =>
      set_spi (regs w)
              (SpiData (Z.testbit mosi 7) (Z.testbit mosi 6) (Z.land mosi 0x3F))
              w
  | SpiData true mb ptr =>
      set_spi (regs w) (SpiData true mb (spi_next mb ptr)) w
  | SpiData false mb ptr =>
      set_spi (<[ptr := mosi]> (regs w)) (SpiData false mb (spi_next mb ptr)) w
  end.

(** ** The program state and its monad *)

Record State : Type := mkState {
  this : ADXL345;
  hw : World
}.

Definition M (A : Type) : Type := State -> A * State.

#[global] Instance M_ret : MRet M := fun A (a : A) (s : State) => (a, s).

#[global] Instance M_bind : MBind M :=
  fun A B (f : A -> M B) (m : M A) (s : State) => f (fst (m s)) (snd (m s)).

(** A call into the board: its result and its effect. *)
Definition hal {A : Type} (result : World -> A) (effect : World -> World) : M A :=
  fun s => (result (hw s), mkState (this s) (effect (hw s))).

Definition exec {A : Type} (m : M A) (s : State) : State := snd (m s).
Definition eval {A : Type} (m : M A) (s : State) : A := fst (m s).

(** *** Arduino core, Wire and SPI *)

Definition Wire_begin : M unit :=
  hal (fun _ => tt) (log EvWireBegin).

Definition Wire_beginTransmission (address : Z) : M unit :=
  hal (fun _ => tt) (set_wire_tx (u8 address) []).

Definition Wire_write (data : Z) : M Z :=
  hal (fun _ => 1)
      (fun w => set_wire_tx (wire_txaddr w) (wire_tx w ++ [u8 data]) w).

Definition Wire_endTransmission (sendStop : bool) : M Z :=
  hal (fun w => if wire_txaddr w =? ADXL345_I2C_ADDRESS then 0 else 2)
      (fun w =>
         let w1 := log (EvI2cWrite (wire_txaddr w) (wire_tx w) sendStop) w in
         set_wire_tx (wire_txaddr w) []
           (if wire_txaddr w =? ADXL345_I2C_ADDRESS
            then i2c_device_write (wire_tx w) w1 else w1)).

Definition Wire_requestFrom (address quantity : Z) (sendStop : bool) : M Z :=
  hal (fun _ => if u8 address =? ADXL345_I2C_ADDRESS then u8 quantity else 0)
      (fun w =>
         let n := Z.to_nat (u8 quantity) in
         let w1 := log (EvI2cRead (u8 address) (u8 quantity) sendStop) w in
         if u8 address =? ADXL345_I2C_ADDRESS then
           set_wire_rx (i2c_fetch n (i2c_ptr w) (regs w))
             (set_device (regs w) (i2c_advance n (i2c_ptr w)) w1)
         else set_wire_rx [] w1).

Definition Wire_available : M Z :=
  hal (fun w => Z.of_nat (length (wire_rx w))) (fun w => w).

Definition Wire_read : M Z :=
  hal (fun w => hd (-1) (wire_rx w)) (fun w => set_wire_rx (tl (wire_rx w)) w).

Definition SPI_begin : M unit :=
  hal (fun _ => tt) (log EvSpiBegin).

Definition SPI_setDataMode (mode : Z) : M unit :=
  hal (fun _ => tt) (log (EvSpiDataMode mode)).

Definition SPI_transfer (data : Z) : M Z :=
  hal spi_miso (fun w => spi_shift (u8 data) (log (EvSpi (u8 data)) w)).

Definition pinMode (pin : Z) (m : PinMode) : M unit :=
  hal (fun _ => tt) (log (EvPinMode (u8 pin) m)).

Definition digitalWrite (pin : Z) (val : Level) : M unit :=
  hal (fun _ => tt)
      (fun w =>
         spi_select (u8 pin) val
           (set_pins (<[u8 pin := val]> (pins w)) (log (EvPin (u8 pin) val) w))).

(** [*p = v] through a [uint8_t] pointer. *)
Definition store (p v : Z) : M unit :=
  hal (fun _ => tt) (fun w => set_mem (<[p := u8 v]> (mem w)) w).

(** The value found in a local [uint8_t] that has no initialiser. *)
Definition uninitialised : M Z :=
  hal (fun w => u8 (junk w)) (fun w => w).

Definition get_this : M ADXL345 := fun s => (this s, s).

Definition set_this (o : ADXL345) : M unit := fun s => (tt, mkState o (hw s)).

(** ** ADXL345.cpp *)

Definition ADXL345_ctor (commType : ADXL345_COMM_t) (csPin : Z) : M unit :=
  o ← get_this;
  set_this (mkADXL345 commType (_csPin o));;
  o ← get_this;
  set_this (mkADXL345 (communicationType o) csPin);;
  o ← get_this;
  if comm_eqb (communicationType o) ADXL345_COMM_SPI then
    SPI_begin;;
    SPI_setDataMode SPI_MODE3;;
    pinMode csPin OUTPUT;;
    digitalWrite csPin HIGH
  else if comm_eqb (communicationType o) ADXL345_COMM_I2C then
    Wire_begin
  else mret tt.

Definition writeReg (regAddr data : Z) : M unit :=
  o ← get_this;
  if comm_eqb (communicationType o) ADXL345_COMM_I2C then
    Wire_beginTransmission ADXL345_I2C_ADDRESS;;
    Wire_write regAddr;;
    Wire_write data;;
    Wire_endTransmission true;;
    mret tt
  else if comm_eqb (communicationType o) ADXL345_COMM_SPI then
    digitalWrite (_csPin o) LOW;;
    SPI_transfer regAddr;;
    SPI_transfer data;;
    digitalWrite (_csPin o) HIGH
  else mret tt.

Definition readReg (regAddr : Z) : M Z :=
  buffer ← uninitialised;
  o ← get_this;
  if comm_eqb (communicationType o) ADXL345_COMM_I2C then
    Wire_beginTransmission ADXL345_I2C_ADDRESS;;
    Wire_write regAddr;;
    Wire_endTransmission false;;
    Wire_requestFrom ADXL345_I2C_ADDRESS 1 true;;
    b ← Wire_read;
    mret (u8 b)
  else if comm_eqb (communicationType o) ADXL345_COMM_SPI then
    let spiAddress := u8 (Z.lor 0x80 regAddr) in
    digitalWrite (_csPin o) LOW;;
    SPI_transfer spiAddress;;
    b ← SPI_transfer 0x00;
    digitalWrite spiAddress HIGH;;
    mret (u8 b)
  else mret buffer.

(** [while (Wire.available()) *pBuffer++ = (uint8_t) Wire.read();] with a
    bound on the number of passes. *)
Fixpoint readRegs_while (fuel : nat) (pBuffer : Z) : M unit :=
  match fuel with
  | O => mret tt
  | S fuel' =>
      n ← Wire_available;
      if n =? 0 then mret tt
      else
        b ← Wire_read;
        store pBuffer (u8 b);;
        readRegs_while fuel' (pBuffer + 1)
  end.

(** Every pass takes one byte out of the receive queue, so the length of the
    queue on entry bounds the passes; see [readRegs_while_exits]. *)
Definition while_Wire_available (pBuffer : Z) : M unit :=
  fun s => readRegs_while (S (length (wire_rx (hw s)))) pBuffer s.

(** [for (uint8_t i = 0; i < size; i++) *pBuffer++ = SPI.transfer(0x00);]
    by recursion on the passes left. *)
Fixpoint readRegs_for (left : nat) (pBuffer : Z) : M unit :=
  match left with
  | O => mret tt
  | S left' =>
      b ← SPI_transfer 0x00;
      store pBuffer b;;
      readRegs_for left' (pBuffer + 1)
  end.

Definition readRegs (regAddr pBuffer size : Z) : M unit :=
  if pBuffer =? NULL then mret tt
  else
    o ← get_this;
    if comm_eqb (communicationType o) ADXL345_COMM_I2C then
      Wire_beginTransmission ADXL345_I2C_ADDRESS;;
      Wire_write regAddr;;
      Wire_endTransmission true;;
      Wire_requestFrom ADXL345_I2C_ADDRESS size true;;
      while_Wire_available pBuffer
    else if comm_eqb (communicationType o) ADXL345_COMM_SPI then
      let spiAddress := u8 (Z.lor 0x80 regAddr) in
      let spiAddress :=
        if 1 <? size then u8 (Z.lor spiAddress 0x40) else spiAddress in
      digitalWrite (_csPin o) LOW;;
      SPI_transfer spiAddress;;
      readRegs_for (Z.to_nat size) pBuffer;;
      digitalWrite (_csPin o) HIGH
    else mret tt.

(** ** A board at power-on *)

(** A board whose device has its chip-select input wired to [cs], holds the
    register file [r], and whose RAM holds [m]. *)
Definition power_on (cs : Z) (r m : gmap Z Z) (j : Z) : World :=
  mkWorld r 0 cs SpiDeselected ∅ 0 [] [] m j [].

(** The state before the constructor runs: the object's storage is not yet
    initialised. *)
Definition reset_state (cs : Z) (r m : gmap Z Z) (j : Z) : State :=
  mkState (mkADXL345 (ADXL345_COMM_other 0) 0) (power_on cs r m j).

(** The state after [ADXL345 dev(commType, csPin)] on a board wired to the
    same pin. *)
Definition constructed (commType : ADXL345_COMM_t) (cs : Z) (r m : gmap Z Z) (j : Z)
  : State :=
  exec (ADXL345_ctor commType cs) (reset_state cs r m j).

(** The events a run from [s] to [s'] added to the bus record. *)
Definition emitted (s s' : State) : list BusEvent :=
  drop (length (bus (hw s))) (bus (hw s')).

(** The first byte a master shifted out on SPI in a run of events. *)
Fixpoint first_spi_byte (evs : list BusEvent) : option Z :=
  match evs with
  | [] => None
  | EvSpi b :: _ => Some b
  | _ :: rest => first_spi_byte rest
  end.

(** The device can take an SPI command: the handle drives the pin the
    device is wired to, and the device is deselected. *)
Definition spi_idle (s : State) : Prop :=
  spi_cs (hw s) = u8 (_csPin (this s)) /\ spi_phase (hw s) = SpiDeselected.

(** ** Sequences of operations on one handle *)

Inductive Op : Type :=
| OpWriteReg (regAddr data : Z)
| OpReadReg (regAddr : Z)
| OpReadRegs (regAddr pBuffer size : Z).

Definition run_op (o : Op) : M unit :=
  match o with
  | OpWriteReg regAddr data => writeReg regAddr data
  | OpReadReg regAddr => readReg regAddr;; mret tt
  | OpReadRegs regAddr pBuffer size => readRegs regAddr pBuffer size
  end.

Fixpoint run_ops (os : list Op) : M unit :=
  match os with
  | [] => mret tt
  | o :: rest => run_op o;; run_ops rest
  end.

(** An operation that leaves the handle's fields as they were. *)
Definition keeps_this {A : Type} (m : M A) : Prop :=
  forall s, this (snd (m s)) = this s.

(** What the device shifts out over [n] bytes of an SPI read, and where its
    register pointer ends. *)
Fixpoint spi_fetch (n : nat) (mb : bool) (ptr : Z) (r : gmap Z Z) : list Z :=
  match n with
  | O => []
  | S n' => reg_get r ptr :: spi_fetch n' mb (spi_next mb ptr) r
  end.

Fixpoint spi_advance (n : nat) (mb : bool) (ptr : Z) : Z :=
  match n with
  | O => ptr
  | S n' => spi_advance n' mb (spi_next mb ptr)
  end.

(** Consecutive stores through a moving [uint8_t] pointer. *)
Fixpoint poke (p : Z) (bs : list Z) (m : gmap Z Z) : gmap Z Z :=
  match bs with
  | [] => m
  | b :: rest => poke (p + 1) rest (<[p := u8 b]> m)
  end.

(** ** The register map and constants of ADXL345.cpp *)

Definition ADXL345_REG_DEVID : Z := 0x00.
Definition ADXL345_REG_THRESH_TAP : Z := 0x1D.
Definition ADXL345_REG_OFSX : Z := 0x1E.
Definition ADXL345_REG_OFSY : Z := 0x1F.
Definition ADXL345_REG_OFSZ : Z := 0x20.
Definition ADXL345_REG_DUR : Z := 0x21.
Definition ADXL345_REG_Latent : Z := 0x22.
Definition ADXL345_REG_Window : Z := 0x23.
Definition ADXL345_REG_THRESH_ACT : Z := 0x24.
Definition ADXL345_REG_THRESH_INACT : Z := 0x25.
Definition ADXL345_REG_TIME_INACT : Z := 0x26.
Definition ADXL345_REG_ACT_INACT_CTL : Z := 0x27.
Definition ADXL345_REG_THRESH_FF : Z := 0x28.
Definition ADXL345_REG_TIME_FF : Z := 0x29.
Definition ADXL345_REG_TAP_AXES : Z := 0x2A.
Definition ADXL345_REG_ACT_TAP_STATUS : Z := 0x2B.
Definition ADXL345_REG_BW_RATE : Z := 0x2C.
Definition ADXL345_REG_POWER_CTL : Z := 0x2D.
Definition ADXL345_REG_INT_ENABLE : Z := 0x2E.
Definition ADXL345_REG_INT_MAP : Z := 0x2F.
Definition ADXL345_REG_INT_SOURCE : Z := 0x30.
Definition ADXL345_REG_DATA_FORMAT : Z := 0x31.
Definition ADXL345_REG_DATAX0 : Z := 0x32.
Definition ADXL345_REG_DATAX1 : Z := 0x33.
Definition ADXL345_REG_DATAY0 : Z := 0x34.
Definition ADXL345_REG_DATAY1 : Z := 0x35.
Definition ADXL345_REG_DATAZ0 : Z := 0x36.
Definition ADXL345_REG_DATAZ1 : Z := 0x37.
Definition ADXL345_REG_FIFO_CTL : Z := 0x38.
Definition ADXL345_REG_FIFO_STATUS : Z := 0x39.

Definition ADXL345_BYTE_DEVICE_ID : Z := 0xE5.
Definition ADXL345_BIT_PWR_REG_MEASURE : Z := Z.shiftl 1 3.

(** Every register address the source names. *)
Definition ADXL345_registers : list Z :=
  [ADXL345_REG_DEVID; ADXL345_REG_THRESH_TAP; ADXL345_REG_OFSX;
   ADXL345_REG_OFSY; ADXL345_REG_OFSZ; ADXL345_REG_DUR; ADXL345_REG_Latent;
   ADXL345_REG_Window; ADXL345_REG_THRESH_ACT; ADXL345_REG_THRESH_INACT;
   ADXL345_REG_TIME_INACT; ADXL345_REG_ACT_INACT_CTL; ADXL345_REG_THRESH_FF;
   ADXL345_REG_TIME_FF; ADXL345_REG_TAP_AXES; ADXL345_REG_ACT_TAP_STATUS;
   ADXL345_REG_BW_RATE; ADXL345_REG_POWER_CTL; ADXL345_REG_INT_ENABLE;
   ADXL345_REG_INT_MAP; ADXL345_REG_INT_SOURCE; ADXL345_REG_DATA_FORMAT;
   ADXL345_REG_DATAX0; ADXL345_REG_DATAX1; ADXL345_REG_DATAY0;
   ADXL345_REG_DATAY1; ADXL345_REG_DATAZ0; ADXL345_REG_DATAZ1;
   ADXL345_REG_FIFO_CTL; ADXL345_REG_FIFO_STATUS].

(** ** Kinds of bus event *)

(** An I2C transaction with the device at [ADXL345_I2C_ADDRESS]. *)
Definition i2c_event (e : BusEvent) : bool :=
  match e with
  | EvI2cWrite a _ _ => a =? ADXL345_I2C_ADDRESS
  | EvI2cRead a _ _ => a =? ADXL345_I2C_ADDRESS
  | _ => false
  end.

(** The number of bytes shifted out on SPI in a run of events. *)
Fixpoint spi_transfers (evs : list BusEvent) : nat :=
  match evs with
  | [] => O
  | EvSpi _ :: rest => S (spi_transfers rest)
  | _ :: rest => spi_transfers rest
  end.

(** A pin level driven by [digitalWrite] or a byte shifted out on SPI. *)
Definition spi_event (e : BusEvent) : bool :=
  match e with
  | EvPin _ _ => true
  | EvSpi _ => true
  | _ => false
  end.

(** The events a handle of a given mode may put on the board. *)
Definition allowed_event (ct : ADXL345_COMM_t) (e : BusEvent) : bool :=
  match ct with
  | ADXL345_COMM_I2C => i2c_event e
  | ADXL345_COMM_SPI => spi_event e
  | ADXL345_COMM_other _ => false
  end.

(** A sequence of operations without a single-register read. *)
Definition no_readReg (os : list Op) : bool :=
  forallb (fun o => match o with OpReadReg _ => false | _ => true end) os.


(** * Properties *)

#[global] Arguments u8 _ : simpl never.

(** ** Bytes and bits *)

Lemma u8_small (x : Z) : is_u8 x -> u8 x = x.
Proof. unfold is_u8, u8. intros H. apply Z.mod_small. exact H. Qed.

Lemma u8_range (x : Z) : is_u8 (u8 x).
Proof. unfold is_u8, u8. apply Z.mod_pos_bound. lia. Qed.

Lemma u8_idem (x : Z) : u8 (u8 x) = u8 x.
Proof. apply u8_small, u8_range. Qed.

Lemma u8_testbit (x i : Z) : 0 <= i < 8 -> Z.testbit (u8 x) i = Z.testbit x i.
Proof.
  intros H. unfold u8. change 256 with (2 ^ 8).
  apply Z.mod_pow2_bits_low. lia.
Qed.

Lemma is_u8_bits (x : Z) :
  0 <= x -> (forall i, 8 <= i -> Z.testbit x i = false) -> is_u8 x.
Proof.
  intros Hx Hb. split; [exact Hx |].
  destruct (Z.eq_dec x 0) as [-> | Hne]; [lia |].
  assert (Hpos : 0 < x) by lia.
  destruct (Z.lt_ge_cases (Z.log2 x) 8) as [Hl | Hl].
  - change 256 with (2 ^ 8). apply Z.log2_lt_pow2; lia.
  - pose proof (Z.bit_log2 x Hpos) as Hbit. rewrite Hb in Hbit by exact Hl.
    discriminate.
Qed.

Lemma u8_high_bits (x i : Z) : is_u8 x -> 8 <= i -> Z.testbit x i = false.
Proof.
  intros [H0 H1] Hi.
  destruct (Z.eq_dec x 0) as [-> | Hne]; [apply Z.bits_0 |].
  apply Z.bits_above_log2; [lia |].
  assert (Z.log2 x < 8); [| lia].
  apply Z.log2_lt_pow2; [lia |]. exact H1.
Qed.

Lemma lor_u8 (x y : Z) : is_u8 x -> is_u8 y -> is_u8 (Z.lor x y).
Proof.
  intros Hx Hy. apply is_u8_bits.
  - apply Z.lor_nonneg. unfold is_u8 in *. lia.
  - intros i Hi. rewrite Z.lor_spec.
    rewrite (u8_high_bits x i Hx Hi), (u8_high_bits y i Hy Hi). reflexivity.
Qed.

Lemma is_u8_128 : is_u8 128.
Proof. unfold is_u8. lia. Qed.

Lemma is_u8_64 : is_u8 64.
Proof. unfold is_u8. lia. Qed.

Lemma read_address_u8 (a : Z) : is_u8 a -> u8 (Z.lor 128 a) = Z.lor 128 a.
Proof. intros H. apply u8_small, lor_u8; [exact is_u8_128 | exact H]. Qed.

Lemma burst_address_u8 (a : Z) :
  is_u8 a -> u8 (Z.lor (Z.lor 128 a) 64) = Z.lor (Z.lor 128 a) 64.
Proof.
  intros H. apply u8_small, lor_u8; [| exact is_u8_64].
  apply lor_u8; [exact is_u8_128 | exact H].
Qed.

(** The register selected by a command byte: its low six bits. *)
Lemma land63_mod (x : Z) : Z.land x 63 = x mod 64.
Proof. change 63 with (Z.ones 6). rewrite Z.land_ones by lia. reflexivity. Qed.

Lemma land63_read (a : Z) : Z.land (Z.lor 128 a) 63 = Z.land a 63.
Proof.
  apply Z.bits_inj'. intros i Hi.
  rewrite !Z.land_spec, Z.lor_spec.
  destruct (Z.lt_ge_cases i 6) as [Hlt | Hge].
  - replace (Z.testbit 128 i) with false; [reflexivity |].
    assert (Hc : i = 0 \/ i = 1 \/ i = 2 \/ i = 3 \/ i = 4 \/ i = 5) by lia.
    destruct Hc as [-> | [-> | [-> | [-> | [-> | ->]]]]]; reflexivity.
  - replace (Z.testbit 63 i) with false; [rewrite !andb_false_r; reflexivity |].
    symmetry. change 63 with (Z.ones 6). apply Z.ones_spec_high. lia.
Qed.

Lemma land63_burst (a : Z) : Z.land (Z.lor (Z.lor 128 a) 64) 63 = Z.land a 63.
Proof.
  apply Z.bits_inj'. intros i Hi.
  rewrite !Z.land_spec, !Z.lor_spec.
  destruct (Z.lt_ge_cases i 6) as [Hlt | Hge].
  - replace (Z.testbit 128 i) with false; [replace (Z.testbit 64 i) with false |].
    + rewrite orb_false_r. reflexivity.
    + assert (Hc : i = 0 \/ i = 1 \/ i = 2 \/ i = 3 \/ i = 4 \/ i = 5) by lia.
      destruct Hc as [-> | [-> | [-> | [-> | [-> | ->]]]]]; reflexivity.
    + assert (Hc : i = 0 \/ i = 1 \/ i = 2 \/ i = 3 \/ i = 4 \/ i = 5) by lia.
      destruct Hc as [-> | [-> | [-> | [-> | [-> | ->]]]]]; reflexivity.
  - replace (Z.testbit 63 i) with false; [rewrite !andb_false_r; reflexivity |].
    symmetry. change 63 with (Z.ones 6). apply Z.ones_spec_high. lia.
Qed.

Lemma testbit7_small (a : Z) : 0 <= a < 128 -> Z.testbit a 7 = false.
Proof.
  intros [H0 H1].
  destruct (Z.eq_dec a 0) as [-> | Hne]; [reflexivity |].
  apply Z.bits_above_log2; [lia |].
  apply Z.log2_lt_pow2; [lia |]. exact H1.
Qed.

(** ** Running the monad *)

Ltac unfold_monad := unfold mbind, M_bind, mret, M_ret.

Ltac unfold_calls :=
  unfold Wire_begin, Wire_beginTransmission, Wire_write, Wire_endTransmission,
    Wire_requestFrom, Wire_available, Wire_read, SPI_begin, SPI_setDataMode,
    SPI_transfer, pinMode, digitalWrite, store, uninitialised.

Ltac unfold_hal := unfold_calls; unfold get_this, set_this, hal.

Lemma emitted_app (s s' : State) (evs : list BusEvent) :
  bus (hw s') = bus (hw s) ++ evs -> emitted s s' = evs.
Proof. intros H. unfold emitted. rewrite H. apply drop_app_length. Qed.

(** ** The handle is not written after construction *)

Lemma keeps_this_ret {A : Type} (a : A) : keeps_this (mret a : M A).
Proof. intros s. reflexivity. Qed.

Lemma keeps_this_bind {A B : Type} (m : M A) (f : A -> M B) :
  keeps_this m -> (forall a, keeps_this (f a)) -> keeps_this (m ≫= f).
Proof.
  intros Hm Hf s. unfold_monad. cbn.
  rewrite Hf. apply Hm.
Qed.

Lemma keeps_this_hal {A : Type} (r : World -> A) (f : World -> World) :
  keeps_this (hal r f).
Proof. intros s. reflexivity. Qed.

Lemma keeps_this_get : keeps_this get_this.
Proof. intros s. reflexivity. Qed.

Lemma keeps_this_if {A : Type} (b : bool) (m1 m2 : M A) :
  keeps_this m1 -> keeps_this m2 -> keeps_this (if b then m1 else m2).
Proof. destruct b; auto. Qed.

Create HintDb handle discriminated.
#[global] Hint Resolve keeps_this_ret keeps_this_hal keeps_this_get : handle.
#[global] Hint Extern 2 (keeps_this (_ ≫= _)) =>
  apply keeps_this_bind; [| intros ?] : handle.
#[global] Hint Extern 2 (keeps_this (if _ then _ else _)) =>
  apply keeps_this_if : handle.
#[global] Hint Extern 1 (keeps_this (let x := _ in _)) => cbv zeta : handle.

Lemma keeps_this_readRegs_while (fuel : nat) (p : Z) :
  keeps_this (readRegs_while fuel p).
Proof.
  revert p. induction fuel as [| fuel IH]; intros p; cbn [readRegs_while].
  - auto with handle.
  - unfold Wire_available, Wire_read, store. auto 10 with handle.
Qed.

Lemma keeps_this_while_Wire_available (p : Z) :
  keeps_this (while_Wire_available p).
Proof. intros s. unfold while_Wire_available. apply keeps_this_readRegs_while. Qed.

Lemma keeps_this_readRegs_for (n : nat) (p : Z) : keeps_this (readRegs_for n p).
Proof.
  revert p. induction n as [| n IH]; intros p; cbn [readRegs_for].
  - auto with handle.
  - unfold SPI_transfer, store. auto 10 with handle.
Qed.

#[global] Hint Resolve keeps_this_while_Wire_available keeps_this_readRegs_for
  : handle.

Lemma keeps_this_writeReg (a v : Z) : keeps_this (writeReg a v).
Proof. unfold writeReg. unfold_calls. auto 20 with handle. Qed.

Lemma keeps_this_readReg (a : Z) : keeps_this (readReg a).
Proof. unfold readReg. unfold_calls. auto 20 with handle. Qed.

Lemma keeps_this_readRegs (a p n : Z) : keeps_this (readRegs a p n).
Proof. unfold readRegs. unfold_calls. auto 20 with handle. Qed.

(** C6: [readRegs] with a null buffer pointer does nothing, in every mode
    and for every address and count: it returns at once, the state of the
    board (bus record, device, RAM) and of the handle is the one before the
    call, and the bus record gains no event. *)
Theorem readRegs_null_noop (s : State) (regAddr size : Z) :
  readRegs regAddr NULL size s = (tt, s) /\
  emitted s (exec (readRegs regAddr NULL size) s) = [].
Proof.
  split; [reflexivity |].
  apply emitted_app. cbn. rewrite app_nil_r. reflexivity.
Qed.

(** C10: when the stored mode is neither enumerator, [readReg] touches no
    bus (the whole state is unchanged) and returns what the uninitialised
    local [buffer] happened to hold. *)
Theorem readReg_unsupported_mode (s : State) (regAddr : Z) :
  communicationType (this s) <> ADXL345_COMM_I2C ->
  communicationType (this s) <> ADXL345_COMM_SPI ->
  readReg regAddr s = (u8 (junk (hw s)), s) /\
  emitted s (exec (readReg regAddr) s) = [].
Proof.
  intros Hi Hs.
  assert (E : readReg regAddr s = (u8 (junk (hw s)), s)).
  { unfold readReg. unfold_monad. unfold_hal.
    destruct s as [[ct cs] w]. cbn in *.
    destruct ct; cbn; try congruence. }
  split; [exact E |].
  apply emitted_app. unfold exec. rewrite E. cbn.
  rewrite app_nil_r. reflexivity.
Qed.

Lemma readReg_unsupported_mode_witness :
  readReg 0x32 (constructed (ADXL345_COMM_other 2) 10 ∅ ∅ 0xA5)
    = (0xA5, constructed (ADXL345_COMM_other 2) 10 ∅ ∅ 0xA5) /\
  emitted (constructed (ADXL345_COMM_other 2) 10 ∅ ∅ 0xA5)
          (exec (readReg 0x32) (constructed (ADXL345_COMM_other 2) 10 ∅ ∅ 0xA5))
    = [].
Proof.
  apply (readReg_unsupported_mode
           (constructed (ADXL345_COMM_other 2) 10 ∅ ∅ 0xA5) 0x32);
    cbn; discriminate.
Defined.


(** ** What the device models leave alone *)

Lemma bus_spi_select (p : Z) (l : Level) (w : World) :
  bus (spi_select p l w) = bus w.
Proof.
  unfold spi_select. destruct (p =? spi_cs w); [| reflexivity].
  destruct l, (spi_phase w); reflexivity.
Qed.

Lemma bus_spi_shift (b : Z) (w : World) : bus (spi_shift b w) = bus w.
Proof.
  unfold spi_shift. destruct (spi_phase w) as [| | [|] mb ptr]; reflexivity.
Qed.

Lemma bus_i2c_device_write (payload : list Z) (w : World) :
  bus (i2c_device_write payload w) = bus w.
Proof. destruct payload; reflexivity. Qed.

Lemma mem_spi_select (p : Z) (l : Level) (w : World) :
  mem (spi_select p l w) = mem w.
Proof.
  unfold spi_select. destruct (p =? spi_cs w); [| reflexivity].
  destruct l, (spi_phase w); reflexivity.
Qed.

Lemma mem_spi_shift (b : Z) (w : World) : mem (spi_shift b w) = mem w.
Proof.
  unfold spi_shift. destruct (spi_phase w) as [| | [|] mb ptr]; reflexivity.
Qed.

Lemma pins_spi_select (p : Z) (l : Level) (w : World) :
  pins (spi_select p l w) = pins w.
Proof.
  unfold spi_select. destruct (p =? spi_cs w); [| reflexivity].
  destruct l, (spi_phase w); reflexivity.
Qed.

Lemma pins_spi_shift (b : Z) (w : World) : pins (spi_shift b w) = pins w.
Proof.
  unfold spi_shift. destruct (spi_phase w) as [| | [|] mb ptr]; reflexivity.
Qed.

Lemma regs_spi_select (p : Z) (l : Level) (w : World) :
  regs (spi_select p l w) = regs w.
Proof.
  unfold spi_select. destruct (p =? spi_cs w); [| reflexivity].
  destruct l, (spi_phase w); reflexivity.
Qed.

Lemma spi_cs_spi_select (p : Z) (l : Level) (w : World) :
  spi_cs (spi_select p l w) = spi_cs w.
Proof.
  unfold spi_select. destruct (p =? spi_cs w); [| reflexivity].
  destruct l, (spi_phase w); reflexivity.
Qed.

Lemma spi_cs_spi_shift (b : Z) (w : World) : spi_cs (spi_shift b w) = spi_cs w.
Proof.
  unfold spi_shift. destruct (spi_phase w) as [| | [|] mb ptr]; reflexivity.
Qed.

Lemma u8_i2c_address : u8 ADXL345_I2C_ADDRESS = ADXL345_I2C_ADDRESS.
Proof. reflexivity. Qed.

Lemma u8_0 : u8 0 = 0.
Proof. reflexivity. Qed.

Lemma u8_1 : u8 1 = 1.
Proof. reflexivity. Qed.

Create Rewrite HintDb board.
#[global] Hint Rewrite u8_i2c_address u8_0 u8_1 u8_idem Z.eqb_refl : board.
#[global] Hint Rewrite bus_spi_select bus_spi_shift bus_i2c_device_write
  mem_spi_select mem_spi_shift pins_spi_select pins_spi_shift regs_spi_select
  spi_cs_spi_select spi_cs_spi_shift : board.

(** Unfold one operation down to the calls into the board. *)
Ltac run_method :=
  unfold exec, eval, writeReg, readReg, readRegs;
  unfold_monad; unfold_hal; cbn -[Z.testbit Z.land Z.lor Z.ltb].

(** Unfold one operation as far as the choice of the bus, keeping the
    calls and loops folded. *)
Ltac enter_method :=
  unfold exec, eval, writeReg, readReg, readRegs;
  unfold_monad; unfold get_this;
  cbn [fst snd this hw communicationType _csPin comm_eqb].

Ltac board :=
  repeat (progress (autorewrite with board; cbn -[Z.testbit Z.land Z.lor Z.ltb])).

Ltac in_mode s H :=
  let ct := fresh "ct" in
  let cs := fresh "cs" in
  let w := fresh "w" in
  destruct s as [[ct cs] w]; cbn in H; subst ct.

(** C4: in SPI mode [readReg] lowers the stored chip-select line, shifts
    out the read-encoded address and a dummy byte, and then raises pin
    [0x80 | regAddr]: the final [digitalWrite(..., HIGH)] names the encoded
    address, and the stored chip-select line is raised only when the two
    numbers happen to coincide. *)
Theorem readReg_spi_raises_encoded_address (s : State) (regAddr : Z) :
  communicationType (this s) = ADXL345_COMM_SPI ->
  is_u8 regAddr ->
  emitted s (exec (readReg regAddr) s) =
    [EvPin (u8 (_csPin (this s))) LOW;
     EvSpi (Z.lor 0x80 regAddr);
     EvSpi 0;
     EvPin (Z.lor 0x80 regAddr) HIGH] /\
  (u8 (_csPin (this s)) <> Z.lor 0x80 regAddr ->
   ~ In (EvPin (u8 (_csPin (this s))) HIGH) (emitted s (exec (readReg regAddr) s))).
Proof.
  intros Hm Ha.
  assert (E : emitted s (exec (readReg regAddr) s) =
    [EvPin (u8 (_csPin (this s))) LOW; EvSpi (Z.lor 0x80 regAddr); EvSpi 0;
     EvPin (Z.lor 0x80 regAddr) HIGH]).
  { apply emitted_app. in_mode s Hm. run_method. board.
    rewrite (read_address_u8 regAddr Ha). board.
    rewrite <- !app_assoc. reflexivity. }
  split; [exact E |].
  intros Hne Hin. rewrite E in Hin. cbn in Hin.
  destruct Hin as [H | [H | [H | [H | []]]]]; try discriminate H.
  injection H as H. congruence.
Qed.

Lemma readReg_spi_raises_encoded_address_witness :
  emitted (constructed ADXL345_COMM_SPI 10 ∅ ∅ 0)
          (exec (readReg 0x32) (constructed ADXL345_COMM_SPI 10 ∅ ∅ 0)) =
    [EvPin 10 LOW; EvSpi 0xB2; EvSpi 0; EvPin 0xB2 HIGH] /\
  ((10 : Z) <> 0xB2 ->
   ~ In (EvPin 10 HIGH)
        (emitted (constructed ADXL345_COMM_SPI 10 ∅ ∅ 0)
                 (exec (readReg 0x32) (constructed ADXL345_COMM_SPI 10 ∅ ∅ 0)))).
Proof.
  apply (readReg_spi_raises_encoded_address
           (constructed ADXL345_COMM_SPI 10 ∅ ∅ 0) 0x32).
  - reflexivity.
  - unfold is_u8. lia.
Defined.

(** ** The two loops of [readRegs] *)

Lemma readRegs_while_run (fuel : nat) (p : Z) (s : State) :
  (length (wire_rx (hw s)) < fuel)%nat ->
  readRegs_while fuel p s =
    (tt, mkState (this s)
           (set_wire_rx [] (set_mem (poke p (wire_rx (hw s)) (mem (hw s))) (hw s)))).
Proof.
  revert p s. induction fuel as [| fuel IH]; intros p s Hlen; [lia |].
  destruct s as [o w]. destruct w as [r ip sc ph ps ta tx rx m j b].
  cbn in Hlen. cbn [readRegs_while]. unfold_monad. unfold_hal.
  destruct rx as [| x rx]; [reflexivity |].
  cbn -[readRegs_while poke Z.of_nat].
  change (Z.of_nat (S (length rx)) =? 0) with false. cbv beta iota.
  rewrite IH by (cbn in *; lia).
  cbn. rewrite u8_idem. reflexivity.
Qed.

Lemma while_Wire_available_run (p : Z) (s : State) :
  while_Wire_available p s =
    (tt, mkState (this s)
           (set_wire_rx [] (set_mem (poke p (wire_rx (hw s)) (mem (hw s))) (hw s)))).
Proof. unfold while_Wire_available. apply readRegs_while_run. lia. Qed.

(** The loop is left through its condition: nothing is available any more. *)
Lemma readRegs_while_exits (p : Z) (s : State) :
  eval Wire_available (exec (while_Wire_available p) s) = 0.
Proof. unfold exec. rewrite while_Wire_available_run. reflexivity. Qed.

Lemma readRegs_for_bus (n : nat) (p : Z) (s : State) :
  bus (hw (snd (readRegs_for n p s))) = bus (hw s) ++ repeat (EvSpi 0) n.
Proof.
  revert p s. induction n as [| n IH]; intros p s; cbn [readRegs_for repeat].
  - cbn. rewrite app_nil_r. reflexivity.
  - unfold_monad. unfold_hal. cbn -[readRegs_for]. rewrite IH. board.
    rewrite <- app_assoc. reflexivity.
Qed.

Lemma readRegs_for_run (n : nat) (p : Z) (s : State) (mb : bool) (ptr : Z) :
  spi_phase (hw s) = SpiData true mb ptr ->
  readRegs_for n p s =
    (tt, mkState (this s)
           (mkWorld (regs (hw s)) (i2c_ptr (hw s)) (spi_cs (hw s))
              (SpiData true mb (spi_advance n mb ptr)) (pins (hw s))
              (wire_txaddr (hw s)) (wire_tx (hw s)) (wire_rx (hw s))
              (poke p (spi_fetch n mb ptr (regs (hw s))) (mem (hw s)))
              (junk (hw s)) (bus (hw s) ++ repeat (EvSpi 0) n))).
Proof.
  revert p s ptr. induction n as [| n IH]; intros p s ptr Hph;
    destruct s as [o w]; destruct w as [r ip sc ph ps ta tx rx m j b];
    cbn in Hph; subst ph.
  - cbn. rewrite app_nil_r. reflexivity.
  - cbn [readRegs_for]. unfold_monad. unfold_hal.
    cbn -[readRegs_for poke spi_fetch spi_advance repeat].
    rewrite (IH _ _ (spi_next mb ptr)) by reflexivity.
    cbn. rewrite <- app_assoc. reflexivity.
Qed.

(** C7: in I2C mode [writeReg] puts exactly one transaction on the bus,
    addressed to 0x53, whose payload is the register address followed by
    the value; [readRegs] with a non-null buffer puts exactly one
    transaction holding only the register address, followed by exactly one
    read request of [size] bytes, both to 0x53. *)
Theorem i2c_write_and_burst_read_transactions (s : State)
    (regAddr data pBuffer size : Z) :
  communicationType (this s) = ADXL345_COMM_I2C ->
  is_u8 regAddr -> is_u8 data -> is_u8 size -> pBuffer <> NULL ->
  emitted s (exec (writeReg regAddr data) s) =
    [EvI2cWrite 0x53 [regAddr; data] true] /\
  emitted s (exec (readRegs regAddr pBuffer size) s) =
    [EvI2cWrite 0x53 [regAddr] true; EvI2cRead 0x53 size true].
Proof.
  intros Hm Ha Hd Hn Hp. split; apply emitted_app; in_mode s Hm.
  - run_method. board. rewrite (u8_small regAddr Ha), (u8_small data Hd).
    reflexivity.
  - unfold exec, readRegs. apply Z.eqb_neq in Hp. rewrite Hp.
    enter_method. rewrite while_Wire_available_run.
    unfold_hal. cbn -[poke]. board.
    rewrite (u8_small regAddr Ha), (u8_small size Hn).
    rewrite <- app_assoc. reflexivity.
Qed.

Lemma i2c_write_and_burst_read_transactions_witness :
  emitted (constructed ADXL345_COMM_I2C 0 ∅ ∅ 0)
          (exec (writeReg 0x32 0x08) (constructed ADXL345_COMM_I2C 0 ∅ ∅ 0)) =
    [EvI2cWrite 0x53 [0x32; 0x08] true] /\
  emitted (constructed ADXL345_COMM_I2C 0 ∅ ∅ 0)
          (exec (readRegs 0x32 0x200 6) (constructed ADXL345_COMM_I2C 0 ∅ ∅ 0)) =
    [EvI2cWrite 0x53 [0x32] true; EvI2cRead 0x53 6 true].
Proof.
  apply (i2c_write_and_burst_read_transactions
           (constructed ADXL345_COMM_I2C 0 ∅ ∅ 0) 0x32 0x08 0x200 6).
  - reflexivity.
  - unfold is_u8. lia.
  - unfold is_u8. lia.
  - unfold is_u8. lia.
  - unfold NULL. lia.
Defined.

(** C8: in I2C mode [readReg] sends one transaction to 0x53 that holds the
    register address and ends without a stop condition, then requests
    exactly one byte from 0x53 with a stop condition, and returns the byte
    the device answered: the content of that register. *)
Theorem readReg_i2c_sequence (s : State) (regAddr : Z) :
  communicationType (this s) = ADXL345_COMM_I2C ->
  is_u8 regAddr ->
  emitted s (exec (readReg regAddr) s) =
    [EvI2cWrite 0x53 [regAddr] false; EvI2cRead 0x53 1 true] /\
  eval (readReg regAddr) s = reg_get (regs (hw s)) regAddr.
Proof.
  intros Hm Ha. split.
  - apply emitted_app. in_mode s Hm. run_method. board.
    rewrite (u8_small regAddr Ha). rewrite <- app_assoc. reflexivity.
  - in_mode s Hm. run_method. board.
    change (Z.to_nat 1) with 1%nat. cbn [i2c_fetch hd].
    rewrite (u8_small regAddr Ha). unfold reg_get. apply u8_idem.
Qed.

Lemma readReg_i2c_sequence_witness :
  emitted (constructed ADXL345_COMM_I2C 0 {[0 := 0xE5]} ∅ 0)
          (exec (readReg 0) (constructed ADXL345_COMM_I2C 0 {[0 := 0xE5]} ∅ 0)) =
    [EvI2cWrite 0x53 [0] false; EvI2cRead 0x53 1 true] /\
  eval (readReg 0) (constructed ADXL345_COMM_I2C 0 {[0 := 0xE5]} ∅ 0) =
    reg_get (regs (hw (constructed ADXL345_COMM_I2C 0 {[0 := 0xE5]} ∅ 0))) 0.
Proof.
  apply (readReg_i2c_sequence
           (constructed ADXL345_COMM_I2C 0 {[0 := 0xE5]} ∅ 0) 0).
  - reflexivity.
  - unfold is_u8. lia.
Defined.

(** C9: the constructor stores the mode and the chip-select line it is
    given, and no operation writes them afterwards: [writeReg], [readReg]
    and [readRegs] each leave the handle as it was, and so does every
    sequence of them, so the mode that picks the bus is the same throughout. *)
Theorem handle_fixed_after_construction (s : State)
    (commType : ADXL345_COMM_t) (csPin regAddr data pBuffer size : Z)
    (os : list Op) :
  this (exec (ADXL345_ctor commType csPin) s) = mkADXL345 commType csPin /\
  this (exec (writeReg regAddr data) s) = this s /\
  this (exec (readReg regAddr) s) = this s /\
  this (exec (readRegs regAddr pBuffer size) s) = this s /\
  this (exec (run_ops os) s) = this s.
Proof.
  split; [| split; [| split; [| split]]].
  - unfold exec, ADXL345_ctor. unfold_monad. unfold get_this, set_this.
    cbn [fst snd this hw communicationType _csPin].
    destruct commType; reflexivity.
  - apply keeps_this_writeReg.
  - apply keeps_this_readReg.
  - apply keeps_this_readRegs.
  - revert s. induction os as [| o os IH]; intros s; [reflexivity |].
    cbn [run_ops]. unfold exec in *. unfold_monad. cbn [fst snd].
    rewrite IH. destruct o; cbn [run_op].
    + apply keeps_this_writeReg.
    + unfold_monad. cbn [fst snd]. apply keeps_this_readReg.
    + apply keeps_this_readRegs.
Qed.

(** ** The address byte of an SPI read *)

Lemma readReg_spi_bus (s : State) (regAddr : Z) :
  communicationType (this s) = ADXL345_COMM_SPI ->
  bus (hw (exec (readReg regAddr) s)) =
    bus (hw s) ++
    [EvPin (u8 (_csPin (this s))) LOW; EvSpi (u8 (Z.lor 0x80 regAddr)); EvSpi 0;
     EvPin (u8 (Z.lor 0x80 regAddr)) HIGH].
Proof.
  intros Hm. in_mode s Hm. run_method. board.
  rewrite <- !app_assoc. reflexivity.
Qed.

Lemma readRegs_spi_bus (s : State) (regAddr pBuffer size : Z) :
  communicationType (this s) = ADXL345_COMM_SPI ->
  pBuffer <> NULL ->
  bus (hw (exec (readRegs regAddr pBuffer size) s)) =
    bus (hw s) ++
    [EvPin (u8 (_csPin (this s))) LOW;
     EvSpi (if 1 <? size then u8 (Z.lor (u8 (Z.lor 0x80 regAddr)) 0x40)
            else u8 (Z.lor 0x80 regAddr))] ++
    repeat (EvSpi 0) (Z.to_nat size) ++
    [EvPin (u8 (_csPin (this s))) HIGH].
Proof.
  intros Hm Hp. in_mode s Hm. apply Z.eqb_neq in Hp.
  unfold exec, readRegs. rewrite Hp. enter_method.
  unfold digitalWrite at 1. unfold hal at 1. cbn [fst snd hw bus].
  board. rewrite readRegs_for_bus.
  unfold_hal. board.
  destruct (1 <? size); board; rewrite <- !app_assoc; reflexivity.
Qed.

Lemma read_address_bit7 (a : Z) : Z.testbit (u8 (Z.lor 0x80 a)) 7 = true.
Proof. rewrite u8_testbit by lia. rewrite Z.lor_spec. reflexivity. Qed.

Lemma read_address_bit6 (a : Z) :
  Z.testbit (u8 (Z.lor 0x80 a)) 6 = Z.testbit a 6.
Proof. rewrite u8_testbit by lia. rewrite Z.lor_spec. reflexivity. Qed.

Lemma burst_address_bit7 (a : Z) :
  Z.testbit (u8 (Z.lor (u8 (Z.lor 0x80 a)) 0x40)) 7 = true.
Proof.
  rewrite u8_testbit by lia. rewrite Z.lor_spec, read_address_bit7. reflexivity.
Qed.

Lemma burst_address_bit6 (a : Z) :
  Z.testbit (u8 (Z.lor (u8 (Z.lor 0x80 a)) 0x40)) 6 = true.
Proof.
  rewrite u8_testbit by lia. rewrite Z.lor_spec. apply orb_true_r.
Qed.

(** C2 (as the code has it): in SPI mode the address byte of every read,
    [readReg] or [readRegs] with a non-null buffer, has bit 7 set.  Its
    bit 6 is the register address's own bit 6 for [readReg], and for
    [readRegs] it is set exactly when [size > 1] or the register address
    has bit 6 set; hence for a register address with bit 6 clear it is set
    exactly when [size > 1]. *)
Theorem spi_read_address_encoding (s : State) (regAddr pBuffer size : Z) :
  communicationType (this s) = ADXL345_COMM_SPI ->
  pBuffer <> NULL ->
  (exists b,
     first_spi_byte (emitted s (exec (readReg regAddr) s)) = Some b /\
     Z.testbit b 7 = true /\
     Z.testbit b 6 = Z.testbit regAddr 6) /\
  (exists b,
     first_spi_byte (emitted s (exec (readRegs regAddr pBuffer size) s)) = Some b /\
     Z.testbit b 7 = true /\
     (Z.testbit b 6 = true <-> 1 < size \/ Z.testbit regAddr 6 = true) /\
     (Z.testbit regAddr 6 = false -> (Z.testbit b 6 = true <-> 1 < size))).
Proof.
  intros Hm Hp. split.
  - exists (u8 (Z.lor 0x80 regAddr)).
    rewrite (emitted_app _ _ _ (readReg_spi_bus s regAddr Hm)).
    split; [reflexivity |].
    split; [apply read_address_bit7 | apply read_address_bit6].
  - rewrite (emitted_app _ _ _ (readRegs_spi_bus s regAddr pBuffer size Hm Hp)).
    cbn [app first_spi_byte].
    destruct (Z.ltb_spec 1 size) as [Hlt | Hge].
    + eexists. split; [reflexivity |].
      split; [apply burst_address_bit7 |].
      rewrite burst_address_bit6. split; [tauto | intros _; tauto].
    + eexists. split; [reflexivity |].
      split; [apply read_address_bit7 |].
      rewrite read_address_bit6. split.
      * split; [tauto | intros [H | H]; [lia | exact H]].
      * intros Hb. rewrite Hb. split; [discriminate | lia].
Qed.

Lemma spi_read_address_encoding_witness :
  (exists b,
     first_spi_byte
       (emitted (constructed ADXL345_COMM_SPI 10 ∅ ∅ 0)
          (exec (readReg 0x32) (constructed ADXL345_COMM_SPI 10 ∅ ∅ 0))) = Some b /\
     Z.testbit b 7 = true /\
     Z.testbit b 6 = Z.testbit 0x32 6) /\
  (exists b,
     first_spi_byte
       (emitted (constructed ADXL345_COMM_SPI 10 ∅ ∅ 0)
          (exec (readRegs 0x32 0x200 6) (constructed ADXL345_COMM_SPI 10 ∅ ∅ 0)))
       = Some b /\
     Z.testbit b 7 = true /\
     (Z.testbit b 6 = true <-> 1 < 6 \/ Z.testbit 0x32 6 = true) /\
     (Z.testbit 0x32 6 = false -> (Z.testbit b 6 = true <-> 1 < 6))).
Proof.
  apply (spi_read_address_encoding
           (constructed ADXL345_COMM_SPI 10 ∅ ∅ 0) 0x32 0x200 6).
  - reflexivity.
  - unfold NULL. lia.
Defined.

(** C2, as stated, fails: [readReg 0x40] is a read of one register, yet the
    address byte on the bus is 0xC0, with bit 6 set. *)
Lemma spi_single_read_sets_bit6 :
  first_spi_byte
    (emitted (constructed ADXL345_COMM_SPI 10 ∅ ∅ 0)
       (exec (readReg 0x40) (constructed ADXL345_COMM_SPI 10 ∅ ∅ 0))) = Some 0xC0 /\
  ~ (Z.testbit 0xC0 6 = true <-> 1 < 1).
Proof.
  split; [vm_compute; reflexivity |].
  intros [H _]. specialize (H eq_refl). lia.
Qed.

(** ** Stepping through an operation, one call at a time *)

Lemma reg_get_insert (r : gmap Z Z) (a v : Z) :
  reg_get (<[a := v]> r) a = u8 v.
Proof. unfold reg_get. rewrite lookup_insert_eq. reflexivity. Qed.

Lemma u8_reg_get (r : gmap Z Z) (a : Z) : u8 (reg_get r a) = reg_get r a.
Proof. unfold reg_get. apply u8_idem. Qed.

Lemma run_bind {A B : Type} (m : M A) (k : A -> M B) (s : State) :
  (m ≫= k) s = k (fst (m s)) (snd (m s)).
Proof. reflexivity. Qed.

Lemma run_bind_hal {A B : Type} (r : World -> A) (e : World -> World)
    (k : A -> M B) (s : State) :
  (hal r e ≫= k) s = k (r (hw s)) (mkState (this s) (e (hw s))).
Proof. reflexivity. Qed.

Lemma run_bind_get {B : Type} (k : ADXL345 -> M B) (s : State) :
  (get_this ≫= k) s = k (this s) s.
Proof. reflexivity. Qed.

Lemma run_bind_ret {A B : Type} (a : A) (k : A -> M B) (s : State) :
  ((mret a : M A) ≫= k) s = k a s.
Proof. reflexivity. Qed.

Lemma run_hal {A : Type} (r : World -> A) (e : World -> World) (s : State) :
  hal r e s = (r (hw s), mkState (this s) (e (hw s))).
Proof. reflexivity. Qed.

Lemma run_ret {A : Type} (a : A) (s : State) : (mret a : M A) s = (a, s).
Proof. reflexivity. Qed.

(** Bring the board, given field by field, back to that form after a call. *)
Ltac norm_world :=
  repeat (progress (
    cbn [hw this communicationType _csPin comm_eqb fst snd app hd tl spi_miso
         regs i2c_ptr spi_cs spi_phase pins wire_txaddr wire_tx wire_rx mem
         junk bus];
    try match goal with
    | |- context [mkState ?o ?X] =>
        let X' := eval cbv [log set_device set_spi set_pins set_wire_tx
                            set_wire_rx set_mem spi_select spi_shift spi_miso
                            i2c_device_write i2c_store i2c_advance length
                            regs i2c_ptr spi_cs spi_phase pins wire_txaddr
                            wire_tx wire_rx mem junk bus hd tl] in X in
        progress (change X with X')
    end)).

Ltac settle :=
  norm_world;
  rewrite ?Z.eqb_refl, ?u8_idem, ?u8_i2c_address, ?u8_0, ?u8_1,
    ?read_address_bit7, ?burst_address_bit7;
  norm_world.

Ltac step :=
  first [ rewrite run_bind_hal | rewrite run_bind_get | rewrite run_bind_ret
        | rewrite run_hal | rewrite run_ret ];
  settle.

Ltac steps := unfold_calls; settle; repeat step.

(** ** What each operation does to the board *)

Section Runs.

Variables (cs : Z) (r : gmap Z Z) (ip : Z) (ps : gmap Z Level).
Variables (ta : Z) (tx rx : list Z) (m : gmap Z Z) (j : Z) (b : list BusEvent).

Local Abbreviation i2c_handle := (mkADXL345 ADXL345_COMM_I2C cs).
Local Abbreviation spi_handle := (mkADXL345 ADXL345_COMM_SPI cs).

Lemma writeReg_i2c_run (sc : Z) (ph : SpiPhase) (regAddr data : Z) :
  writeReg regAddr data
    (mkState i2c_handle (mkWorld r ip sc ph ps ta tx rx m j b)) =
  (tt,
   mkState i2c_handle
     (mkWorld (<[u8 regAddr := u8 data]> r) (u8 (u8 regAddr + 1)) sc ph ps
        ADXL345_I2C_ADDRESS [] rx m j
        (b ++ [EvI2cWrite ADXL345_I2C_ADDRESS [u8 regAddr; u8 data] true]))).
Proof. unfold writeReg. steps. reflexivity. Qed.

Lemma readReg_i2c_run (sc : Z) (ph : SpiPhase) (regAddr : Z) :
  readReg regAddr
    (mkState i2c_handle (mkWorld r ip sc ph ps ta tx rx m j b)) =
  (reg_get r (u8 regAddr),
   mkState i2c_handle
     (mkWorld r (u8 (u8 regAddr + 1)) sc ph ps ADXL345_I2C_ADDRESS [] [] m j
        (b ++ [EvI2cWrite ADXL345_I2C_ADDRESS [u8 regAddr] false;
               EvI2cRead ADXL345_I2C_ADDRESS 1 true]))).
Proof.
  unfold readReg. steps. change (Z.to_nat 1) with 1%nat.
  cbn [i2c_fetch i2c_advance]. steps.
  rewrite u8_reg_get, <- app_assoc. reflexivity.
Qed.

Lemma readRegs_i2c_run (sc : Z) (ph : SpiPhase) (regAddr pBuffer size : Z) :
  pBuffer <> NULL ->
  readRegs regAddr pBuffer size
    (mkState i2c_handle (mkWorld r ip sc ph ps ta tx rx m j b)) =
  (tt,
   mkState i2c_handle
     (mkWorld r (i2c_advance (Z.to_nat (u8 size)) (u8 regAddr)) sc ph ps
        ADXL345_I2C_ADDRESS [] []
        (poke pBuffer (i2c_fetch (Z.to_nat (u8 size)) (u8 regAddr) r) m) j
        (b ++ [EvI2cWrite ADXL345_I2C_ADDRESS [u8 regAddr] true;
               EvI2cRead ADXL345_I2C_ADDRESS (u8 size) true]))).
Proof.
  intros Hp. apply Z.eqb_neq in Hp. unfold readRegs. rewrite Hp. steps.
  rewrite while_Wire_available_run. norm_world.
  rewrite <- app_assoc. reflexivity.
Qed.

(** The SPI runs start with the device deselected and wired to the
    handle's chip-select pin. *)

Lemma writeReg_spi_run (regAddr data : Z) :
  writeReg regAddr data
    (mkState spi_handle (mkWorld r ip (u8 cs) SpiDeselected ps ta tx rx m j b)) =
  (tt,
   mkState spi_handle
     (mkWorld
        (if Z.testbit (u8 regAddr) 7 then r
         else <[Z.land (u8 regAddr) 0x3F := u8 data]> r)
        ip (u8 cs) SpiDeselected (<[u8 cs := HIGH]> (<[u8 cs := LOW]> ps))
        ta tx rx m j
        (b ++ [EvPin (u8 cs) LOW; EvSpi (u8 regAddr); EvSpi (u8 data);
               EvPin (u8 cs) HIGH]))).
Proof.
  unfold writeReg. steps.
  destruct (Z.testbit (u8 regAddr) 7); steps;
    rewrite <- !app_assoc; reflexivity.
Qed.

Lemma readReg_spi_run (regAddr : Z) :
  readReg regAddr
    (mkState spi_handle (mkWorld r ip (u8 cs) SpiDeselected ps ta tx rx m j b)) =
  (reg_get r (Z.land (u8 (Z.lor 0x80 regAddr)) 0x3F),
   mkState spi_handle
     (mkWorld r ip (u8 cs)
        (if u8 (Z.lor 0x80 regAddr) =? u8 cs then SpiDeselected
         else SpiData true (Z.testbit (u8 (Z.lor 0x80 regAddr)) 6)
                (spi_next (Z.testbit (u8 (Z.lor 0x80 regAddr)) 6)
                   (Z.land (u8 (Z.lor 0x80 regAddr)) 0x3F)))
        (<[u8 (Z.lor 0x80 regAddr) := HIGH]> (<[u8 cs := LOW]> ps))
        ta tx rx m j
        (b ++ [EvPin (u8 cs) LOW; EvSpi (u8 (Z.lor 0x80 regAddr)); EvSpi 0;
               EvPin (u8 (Z.lor 0x80 regAddr)) HIGH]))).
Proof.
  unfold readReg. steps. rewrite u8_reg_get.
  destruct (u8 (Z.lor 128 regAddr) =? u8 cs);
    rewrite <- !app_assoc; reflexivity.
Qed.

Lemma readRegs_spi_run (regAddr pBuffer size : Z) :
  pBuffer <> NULL ->
  let c := if 1 <? size then u8 (Z.lor (u8 (Z.lor 0x80 regAddr)) 0x40)
           else u8 (Z.lor 0x80 regAddr) in
  readRegs regAddr pBuffer size
    (mkState spi_handle (mkWorld r ip (u8 cs) SpiDeselected ps ta tx rx m j b)) =
  (tt,
   mkState spi_handle
     (mkWorld r ip (u8 cs) SpiDeselected
        (<[u8 cs := HIGH]> (<[u8 cs := LOW]> ps)) ta tx rx
        (poke pBuffer
           (spi_fetch (Z.to_nat size) (Z.testbit c 6) (Z.land c 0x3F) r) m)
        j
        (b ++ [EvPin (u8 cs) LOW; EvSpi c] ++
              repeat (EvSpi 0) (Z.to_nat size) ++ [EvPin (u8 cs) HIGH]))).
Proof.
  intros Hp c. apply Z.eqb_neq in Hp. unfold readRegs. rewrite Hp.
  fold c. steps.
  assert (Hc : u8 c = c) by (subst c; destruct (1 <? size); apply u8_idem).
  assert (H7 : Z.testbit c 7 = true)
    by (subst c; destruct (1 <? size);
        [apply burst_address_bit7 | apply read_address_bit7]).
  rewrite Hc, H7. rewrite run_bind.
  erewrite readRegs_for_run by reflexivity. norm_world. steps.
  rewrite <- !app_assoc. reflexivity.
Qed.

End Runs.

(** ** Writing a register and reading it back *)

(** C1 (as the code has it): in I2C mode for every register address and
    byte value, and in SPI mode for every register address below 0x80
    (bit 7 clear) when the call starts with the device deselected on the
    handle's chip-select line, [readReg] after [writeReg] on the same
    address returns the written value. *)
Theorem writeReg_readReg_roundtrip (s : State) (regAddr data : Z) :
  is_u8 regAddr -> is_u8 data ->
  communicationType (this s) = ADXL345_COMM_I2C \/
  (communicationType (this s) = ADXL345_COMM_SPI /\ spi_idle s /\ regAddr < 0x80) ->
  eval (readReg regAddr) (exec (writeReg regAddr data) s) = data.
Proof.
  intros Ha Hd H.
  destruct s as [[ct cs] [r ip sc ph ps ta tx rx m j b]].
  unfold eval, exec.
  destruct H as [Hm | (Hm & [Hcs Hph] & Hlt)]; cbn in *; subst.
  - rewrite writeReg_i2c_run. cbn [snd]. rewrite readReg_i2c_run. cbn [fst].
    rewrite reg_get_insert, u8_idem. apply u8_small, Hd.
  - rewrite writeReg_spi_run. cbn [snd]. rewrite readReg_spi_run. cbn [fst].
    rewrite (u8_small regAddr Ha), (read_address_u8 regAddr Ha), land63_read.
    rewrite (testbit7_small regAddr) by (unfold is_u8 in Ha; lia).
    rewrite reg_get_insert, u8_idem. apply u8_small, Hd.
Qed.

Lemma writeReg_readReg_roundtrip_witness :
  eval (readReg 0x2D)
       (exec (writeReg 0x2D 0x08) (constructed ADXL345_COMM_SPI 10 ∅ ∅ 0)) = 0x08.
Proof.
  apply (writeReg_readReg_roundtrip (constructed ADXL345_COMM_SPI 10 ∅ ∅ 0)
           0x2D 0x08).
  - unfold is_u8. lia.
  - unfold is_u8. lia.
  - right. split; [reflexivity |]. split; [split; reflexivity | lia].
Defined.

(** C1, as stated, fails in SPI mode for an address with bit 7 set:
    [writeReg 0x80 1] shifts out 0x80, which the device takes as a read of
    register 0, so nothing is written and [readReg 0x80] returns 0. *)
Lemma spi_write_with_bit7_is_not_read_back :
  eval (readReg 0x80)
       (exec (writeReg 0x80 1) (constructed ADXL345_COMM_SPI 10 ∅ ∅ 0)) <> 1.
Proof. vm_compute. discriminate. Qed.

(** The round trip needs the device deselected at the start: after a
    [readReg] in SPI mode has left it selected, the bytes of the next
    [writeReg] are clocked into the read that is still open. *)
Lemma spi_roundtrip_after_readReg :
  eval (readReg 0x2D)
       (exec (writeReg 0x2D 0x08)
          (exec (readReg 0x00) (constructed ADXL345_COMM_SPI 10 ∅ ∅ 0))) = 0.
Proof. vm_compute. reflexivity. Qed.

(** In SPI mode a write to an address with bit 7 set changes no register. *)
Lemma writeReg_spi_bit7_writes_nothing (s : State) (regAddr data : Z) :
  communicationType (this s) = ADXL345_COMM_SPI ->
  spi_idle s ->
  Z.testbit (u8 regAddr) 7 = true ->
  regs (hw (exec (writeReg regAddr data) s)) = regs (hw s).
Proof.
  intros Hm [Hcs Hph] Hb.
  destruct s as [[ct cs] [r ip sc ph ps ta tx rx m j b]].
  cbn in *; subst. unfold exec. rewrite writeReg_spi_run. cbn.
  rewrite Hb. reflexivity.
Qed.

(** ** Reading a run of registers into a buffer *)

Lemma poke_lookup_out (bs : list Z) (p : Z) (m : gmap Z Z) (q : Z) :
  ~ (p <= q < p + Z.of_nat (length bs)) -> poke p bs m !! q = m !! q.
Proof.
  revert p m. induction bs as [| b bs IH]; intros p m Hq; cbn [poke length] in *.
  - reflexivity.
  - rewrite IH by lia. apply lookup_insert_ne. lia.
Qed.

Lemma poke_lookup_in (bs : list Z) (p : Z) (m : gmap Z Z) (i : nat) (x : Z) :
  bs !! i = Some x -> poke p bs m !! (p + Z.of_nat i) = Some (u8 x).
Proof.
  revert p m i. induction bs as [| b bs IH]; intros p m i H.
  - rewrite lookup_nil in H. discriminate H.
  - destruct i as [| i]; cbn in H; cbn [poke].
    + injection H as ->. rewrite poke_lookup_out by lia.
      replace (p + Z.of_nat 0) with p by lia. apply lookup_insert_eq.
    + replace (p + Z.of_nat (S i)) with ((p + 1) + Z.of_nat i) by lia.
      apply IH. exact H.
Qed.

Lemma i2c_fetch_length (n : nat) (ptr : Z) (r : gmap Z Z) :
  length (i2c_fetch n ptr r) = n.
Proof.
  revert ptr. induction n as [| n IH]; intros ptr; cbn [i2c_fetch length].
  - reflexivity.
  - rewrite IH. reflexivity.
Qed.

Lemma u8_succ (x : Z) : u8 (u8 x + 1) = u8 (x + 1).
Proof. unfold u8. apply Zplus_mod_idemp_l. Qed.

Lemma i2c_fetch_lookup (n : nat) (ptr : Z) (r : gmap Z Z) (i : nat) :
  (i < n)%nat ->
  i2c_fetch n (u8 ptr) r !! i = Some (reg_get r (u8 (ptr + Z.of_nat i))).
Proof.
  revert ptr i. induction n as [| n IH]; intros ptr i Hi; [lia |].
  cbn [i2c_fetch]. destruct i as [| i].
  - replace (ptr + Z.of_nat 0) with ptr by lia. reflexivity.
  - cbn [lookup list_lookup]. rewrite u8_succ.
    rewrite IH by lia. f_equal. f_equal. f_equal. lia.
Qed.

Lemma spi_fetch_length (n : nat) (mb : bool) (ptr : Z) (r : gmap Z Z) :
  length (spi_fetch n mb ptr r) = n.
Proof.
  revert ptr. induction n as [| n IH]; intros ptr; cbn [spi_fetch length].
  - reflexivity.
  - rewrite IH. reflexivity.
Qed.

Lemma mod64_succ (x : Z) : (x mod 64 + 1) mod 64 = (x + 1) mod 64.
Proof. apply Zplus_mod_idemp_l. Qed.

Lemma spi_fetch_lookup (n : nat) (ptr : Z) (r : gmap Z Z) (i : nat) :
  (i < n)%nat ->
  spi_fetch n true (ptr mod 64) r !! i =
    Some (reg_get r ((ptr + Z.of_nat i) mod 64)).
Proof.
  revert ptr i. induction n as [| n IH]; intros ptr i Hi; [lia |].
  cbn [spi_fetch]. destruct i as [| i].
  - replace (ptr + Z.of_nat 0) with ptr by lia. reflexivity.
  - cbn [lookup list_lookup]. unfold spi_next. rewrite mod64_succ.
    rewrite IH by lia. f_equal. f_equal. f_equal. lia.
Qed.

Lemma spi_fetch_one (mb : bool) (ptr : Z) (r : gmap Z Z) :
  spi_fetch 1 mb ptr r = [reg_get r ptr].
Proof. reflexivity. Qed.

(** C5 (as the code has it): with a non-null buffer and [1 <= size],
    [readRegs] stores exactly [size] bytes and changes no register; slot
    [i] receives register [(regAddr + i) mod W], where [W] is 256 in I2C
    mode and, in SPI mode started with the device deselected on the
    handle's chip-select line, 64: the command byte carries six address
    bits.  Hence slot [i] receives register [regAddr + i] whenever
    [regAddr + size <= W]. *)
Theorem readRegs_fills_buffer (s : State) (regAddr pBuffer size W : Z) :
  is_u8 regAddr -> is_u8 size -> 1 <= size -> pBuffer <> NULL ->
  (communicationType (this s) = ADXL345_COMM_I2C /\ W = 256) \/
  (communicationType (this s) = ADXL345_COMM_SPI /\ spi_idle s /\ W = 64) ->
  (forall i, 0 <= i < size ->
     mem (hw (exec (readRegs regAddr pBuffer size) s)) !! (pBuffer + i) =
       Some (reg_get (regs (hw s)) ((regAddr + i) mod W))) /\
  (regAddr + size <= W ->
   forall i, 0 <= i < size ->
     mem (hw (exec (readRegs regAddr pBuffer size) s)) !! (pBuffer + i) =
       Some (reg_get (regs (hw s)) (regAddr + i))) /\
  (forall q, ~ (pBuffer <= q < pBuffer + size) ->
     mem (hw (exec (readRegs regAddr pBuffer size) s)) !! q = mem (hw s) !! q) /\
  regs (hw (exec (readRegs regAddr pBuffer size) s)) = regs (hw s).
Proof.
  intros Ha Hn H1 Hp H.
  assert (Hslots : forall i, 0 <= i < size ->
     mem (hw (exec (readRegs regAddr pBuffer size) s)) !! (pBuffer + i) =
       Some (reg_get (regs (hw s)) ((regAddr + i) mod W))).
  { destruct s as [[ct cs] [r ip sc ph ps ta tx rx m j b]]. unfold exec.
    destruct H as [[Hm HW] | (Hm & [Hcs Hph] & HW)]; cbn in Hm; subst ct W.
    - rewrite (readRegs_i2c_run _ _ _ _ _ _ _ _ _ _ _ _ _ _ _ Hp).
      cbn [snd hw mem regs]. rewrite (u8_small size Hn).
      intros i Hi. replace i with (Z.of_nat (Z.to_nat i)) by lia.
      erewrite poke_lookup_in by (apply i2c_fetch_lookup; lia).
      rewrite u8_reg_get. reflexivity.
    - cbn in Hcs, Hph. subst sc ph.
      rewrite (readRegs_spi_run _ _ _ _ _ _ _ _ _ _ _ _ _ Hp).
      cbn [snd hw mem regs].
      intros i Hi. replace i with (Z.of_nat (Z.to_nat i)) by lia.
      destruct (Z.ltb_spec 1 size) as [Hlt | Hge].
      + rewrite burst_address_bit6.
        rewrite (read_address_u8 regAddr Ha), (burst_address_u8 regAddr Ha).
        rewrite land63_burst, land63_mod.
        erewrite poke_lookup_in by (apply spi_fetch_lookup; lia).
        rewrite u8_reg_get. reflexivity.
      + assert (size = 1) by lia. subst size.
        assert (i = 0) by lia. subst i.
        change (Z.to_nat 1) with 1%nat. rewrite spi_fetch_one.
        rewrite (read_address_u8 regAddr Ha), land63_read, land63_mod.
        cbn [poke Z.to_nat Z.of_nat]. rewrite !Z.add_0_r.
        rewrite lookup_insert_eq, u8_reg_get. reflexivity. }
  split; [exact Hslots |]. split.
  - intros Hfit i Hi. rewrite (Hslots i Hi).
    rewrite Z.mod_small; [reflexivity |]. unfold is_u8 in *. lia.
  - destruct s as [[ct cs] [r ip sc ph ps ta tx rx m j b]]. unfold exec.
    destruct H as [[Hm HW] | (Hm & [Hcs Hph] & HW)]; cbn in Hm; subst ct W.
    + rewrite (readRegs_i2c_run _ _ _ _ _ _ _ _ _ _ _ _ _ _ _ Hp).
      cbn [snd hw mem regs]. rewrite (u8_small size Hn).
      split; [| reflexivity].
      intros q Hq. apply poke_lookup_out. rewrite i2c_fetch_length. lia.
    + cbn in Hcs, Hph. subst sc ph.
      rewrite (readRegs_spi_run _ _ _ _ _ _ _ _ _ _ _ _ _ Hp).
      cbn [snd hw mem regs]. split; [| reflexivity].
      intros q Hq. apply poke_lookup_out. rewrite spi_fetch_length. lia.
Qed.

Lemma readRegs_fills_buffer_witness :
  (forall i, 0 <= i < 6 ->
     mem (hw (exec (readRegs 0x32 0x200 6)
                (constructed ADXL345_COMM_SPI 10 {[0x32 := 0x11]} ∅ 0)))
       !! (0x200 + i) =
       Some (reg_get (regs (hw (constructed ADXL345_COMM_SPI 10 {[0x32 := 0x11]} ∅ 0)))
               ((0x32 + i) mod 64))) /\
  (0x32 + 6 <= 64 ->
   forall i, 0 <= i < 6 ->
     mem (hw (exec (readRegs 0x32 0x200 6)
                (constructed ADXL345_COMM_SPI 10 {[0x32 := 0x11]} ∅ 0)))
       !! (0x200 + i) =
       Some (reg_get (regs (hw (constructed ADXL345_COMM_SPI 10 {[0x32 := 0x11]} ∅ 0)))
               (0x32 + i))) /\
  (forall q, ~ (0x200 <= q < 0x200 + 6) ->
     mem (hw (exec (readRegs 0x32 0x200 6)
                (constructed ADXL345_COMM_SPI 10 {[0x32 := 0x11]} ∅ 0))) !! q =
     mem (hw (constructed ADXL345_COMM_SPI 10 {[0x32 := 0x11]} ∅ 0)) !! q) /\
  regs (hw (exec (readRegs 0x32 0x200 6)
              (constructed ADXL345_COMM_SPI 10 {[0x32 := 0x11]} ∅ 0))) =
  regs (hw (constructed ADXL345_COMM_SPI 10 {[0x32 := 0x11]} ∅ 0)).
Proof.
  apply (readRegs_fills_buffer
           (constructed ADXL345_COMM_SPI 10 {[0x32 := 0x11]} ∅ 0) 0x32 0x200 6 64).
  - unfold is_u8. lia.
  - unfold is_u8. lia.
  - lia.
  - unfold NULL. lia.
  - right. split; [reflexivity |]. split; [split; reflexivity | reflexivity].
Defined.

(** C5, as stated, fails in SPI mode for an address outside the 6-bit
    register field: [readRegs 0x80 buf 1] shifts out the command 0x80, a
    read of register 0, and the buffer receives the content of register 0
    (0xE5 here), not that of register 0x80 (which holds 0). *)
Lemma spi_burst_read_aliases_high_address :
  mem (hw (exec (readRegs 0x80 0x200 1)
             (constructed ADXL345_COMM_SPI 10 {[0 := 0xE5]} ∅ 0))) !! (0x200 + 0)
  <> Some (reg_get (regs (hw (constructed ADXL345_COMM_SPI 10 {[0 := 0xE5]} ∅ 0)))
             (0x80 + 0)).
Proof. vm_compute. discriminate. Qed.

(** No SPI device can tell the two reads apart: the bus carries the same
    events for register address [a] and for [a] with bit 7 set. *)
Lemma spi_read_bus_ignores_bit7 (s : State) (regAddr pBuffer size : Z) :
  communicationType (this s) = ADXL345_COMM_SPI ->
  pBuffer <> NULL ->
  emitted s (exec (readRegs (Z.lor 0x80 regAddr) pBuffer size) s) =
  emitted s (exec (readRegs regAddr pBuffer size) s).
Proof.
  intros Hm Hp.
  rewrite (emitted_app _ _ _ (readRegs_spi_bus s _ pBuffer size Hm Hp)).
  rewrite (emitted_app _ _ _ (readRegs_spi_bus s _ pBuffer size Hm Hp)).
  rewrite Z.lor_assoc. reflexivity.
Qed.

(** ** Chip-select around an SPI transaction *)

(** [writeReg] and [readRegs] lower the stored chip-select line before the
    first transfer and raise it after the last one. *)
Lemma writeReg_readRegs_frame_chip_select (s : State)
    (regAddr data pBuffer size : Z) :
  communicationType (this s) = ADXL345_COMM_SPI ->
  spi_idle s ->
  pBuffer <> NULL ->
  (exists mid,
     emitted s (exec (writeReg regAddr data) s) =
       [EvPin (u8 (_csPin (this s))) LOW] ++ mid ++
       [EvPin (u8 (_csPin (this s))) HIGH] /\
     mid = [EvSpi (u8 regAddr); EvSpi (u8 data)]) /\
  pins (hw (exec (writeReg regAddr data) s)) !! u8 (_csPin (this s)) = Some HIGH /\
  spi_phase (hw (exec (writeReg regAddr data) s)) = SpiDeselected /\
  (exists c,
     emitted s (exec (readRegs regAddr pBuffer size) s) =
       [EvPin (u8 (_csPin (this s))) LOW] ++
       (EvSpi c :: repeat (EvSpi 0) (Z.to_nat size)) ++
       [EvPin (u8 (_csPin (this s))) HIGH]) /\
  pins (hw (exec (readRegs regAddr pBuffer size) s)) !! u8 (_csPin (this s))
    = Some HIGH /\
  spi_phase (hw (exec (readRegs regAddr pBuffer size) s)) = SpiDeselected.
Proof.
  intros Hm [Hcs Hph] Hp.
  destruct s as [[ct cs] [r ip sc ph ps ta tx rx m j b]].
  cbn in Hm, Hcs, Hph. subst ct sc ph. unfold exec, emitted.
  rewrite writeReg_spi_run, (readRegs_spi_run _ _ _ _ _ _ _ _ _ _ _ _ _ Hp).
  cbn [snd hw this _csPin bus pins spi_phase].
  rewrite !drop_app_length, !lookup_insert_eq.
  split; [exists [EvSpi (u8 regAddr); EvSpi (u8 data)]; split; reflexivity |].
  split; [reflexivity |]. split; [reflexivity |].
  split; [eexists; reflexivity |].
  split; reflexivity.
Qed.

(** C3 fails on [readReg]: started with the device deselected, and with a
    stored chip-select line other than the read-encoded address, [readReg]
    returns with the chip-select line still low and the device still
    selected; no event raises the line. *)
Theorem readReg_spi_leaves_chip_select_low (s : State) (regAddr : Z) :
  communicationType (this s) = ADXL345_COMM_SPI ->
  spi_idle s ->
  u8 (Z.lor 0x80 regAddr) <> u8 (_csPin (this s)) ->
  pins (hw (exec (readReg regAddr) s)) !! u8 (_csPin (this s)) = Some LOW /\
  spi_phase (hw (exec (readReg regAddr) s)) <> SpiDeselected /\
  ~ In (EvPin (u8 (_csPin (this s))) HIGH) (emitted s (exec (readReg regAddr) s)).
Proof.
  intros Hm [Hcs Hph] Hne.
  destruct s as [[ct cs] [r ip sc ph ps ta tx rx m j b]].
  cbn in Hm, Hcs, Hph, Hne. subst ct sc ph. unfold exec, emitted.
  rewrite readReg_spi_run.
  cbn [snd hw this _csPin bus pins spi_phase].
  apply Z.eqb_neq in Hne as Hneb. rewrite Hneb.
  rewrite drop_app_length, lookup_insert_ne, lookup_insert_eq by exact Hne.
  split; [reflexivity |]. split; [discriminate |].
  cbn. intros [H | [H | [H | [H | []]]]]; try discriminate H.
  injection H as H. congruence.
Qed.

Lemma readReg_spi_leaves_chip_select_low_witness :
  pins (hw (exec (readReg 0x32) (constructed ADXL345_COMM_SPI 10 ∅ ∅ 0)))
    !! u8 (_csPin (this (constructed ADXL345_COMM_SPI 10 ∅ ∅ 0))) = Some LOW /\
  spi_phase (hw (exec (readReg 0x32) (constructed ADXL345_COMM_SPI 10 ∅ ∅ 0)))
    <> SpiDeselected /\
  ~ In (EvPin (u8 (_csPin (this (constructed ADXL345_COMM_SPI 10 ∅ ∅ 0)))) HIGH)
       (emitted (constructed ADXL345_COMM_SPI 10 ∅ ∅ 0)
          (exec (readReg 0x32) (constructed ADXL345_COMM_SPI 10 ∅ ∅ 0))).
Proof.
  apply (readReg_spi_leaves_chip_select_low
           (constructed ADXL345_COMM_SPI 10 ∅ ∅ 0) 0x32).
  - reflexivity.
  - split; reflexivity.
  - vm_compute. discriminate.
Defined.

(** * Further properties of the driver *)

(** ** The constructor *)

Lemma run_bind_set {B : Type} (o : ADXL345) (k : unit -> M B) (s : State) :
  (set_this o ≫= k) s = k tt (mkState o (hw s)).
Proof. reflexivity. Qed.

Ltac enter_ctor :=
  unfold ADXL345_ctor;
  rewrite run_bind_get, run_bind_set, run_bind_get, run_bind_set, run_bind_get;
  cbn [this hw communicationType _csPin comm_eqb].

Lemma ctor_spi_run (o : ADXL345) (csPin : Z) (r : gmap Z Z) (ip : Z)
    (ph : SpiPhase) (ps : gmap Z Level) (ta : Z) (tx rx : list Z)
    (m : gmap Z Z) (j : Z) (b : list BusEvent) :
  ADXL345_ctor ADXL345_COMM_SPI csPin
    (mkState o (mkWorld r ip (u8 csPin) ph ps ta tx rx m j b)) =
  (tt,
   mkState (mkADXL345 ADXL345_COMM_SPI csPin)
     (mkWorld r ip (u8 csPin) SpiDeselected (<[u8 csPin := HIGH]> ps)
        ta tx rx m j
        (b ++ [EvSpiBegin; EvSpiDataMode SPI_MODE3;
               EvPinMode (u8 csPin) OUTPUT; EvPin (u8 csPin) HIGH]))).
Proof. enter_ctor. steps. rewrite <- !app_assoc. reflexivity. Qed.

Lemma ctor_i2c_run (o : ADXL345) (csPin : Z) (w : World) :
  ADXL345_ctor ADXL345_COMM_I2C csPin (mkState o w) =
  (tt, mkState (mkADXL345 ADXL345_COMM_I2C csPin) (log EvWireBegin w)).
Proof. enter_ctor. reflexivity. Qed.

(** X1: constructing an SPI handle starts the SPI peripheral in mode 3,
    makes the chip-select pin an output and drives it high, in that order;
    on a board whose device is wired to that pin the device is then
    deselected, whatever it was doing before, and no register is touched. *)
Theorem ctor_spi_deselects_device (s : State) (csPin : Z) :
  spi_cs (hw s) = u8 csPin ->
  emitted s (exec (ADXL345_ctor ADXL345_COMM_SPI csPin) s) =
    [EvSpiBegin; EvSpiDataMode SPI_MODE3; EvPinMode (u8 csPin) OUTPUT;
     EvPin (u8 csPin) HIGH] /\
  pins (hw (exec (ADXL345_ctor ADXL345_COMM_SPI csPin) s)) !! u8 csPin
    = Some HIGH /\
  spi_idle (exec (ADXL345_ctor ADXL345_COMM_SPI csPin) s) /\
  regs (hw (exec (ADXL345_ctor ADXL345_COMM_SPI csPin) s)) = regs (hw s).
Proof.
  intros Hcs. destruct s as [o [r ip sc ph ps ta tx rx m j b]].
  cbn in Hcs. subst sc. unfold emitted, spi_idle, exec.
  rewrite ctor_spi_run.
  cbn [snd hw this _csPin bus pins spi_phase spi_cs regs].
  rewrite drop_app_length, lookup_insert_eq.
  repeat split; reflexivity.
Qed.

Lemma ctor_spi_deselects_device_witness :
  emitted (reset_state 10 ∅ ∅ 0)
          (exec (ADXL345_ctor ADXL345_COMM_SPI 10) (reset_state 10 ∅ ∅ 0)) =
    [EvSpiBegin; EvSpiDataMode SPI_MODE3; EvPinMode (u8 10) OUTPUT;
     EvPin (u8 10) HIGH] /\
  pins (hw (exec (ADXL345_ctor ADXL345_COMM_SPI 10) (reset_state 10 ∅ ∅ 0)))
    !! u8 10 = Some HIGH /\
  spi_idle (exec (ADXL345_ctor ADXL345_COMM_SPI 10) (reset_state 10 ∅ ∅ 0)) /\
  regs (hw (exec (ADXL345_ctor ADXL345_COMM_SPI 10) (reset_state 10 ∅ ∅ 0))) =
  regs (hw (reset_state 10 ∅ ∅ 0)).
Proof.
  apply (ctor_spi_deselects_device (reset_state 10 ∅ ∅ 0) 10). reflexivity.
Defined.

(** X2: constructing an I2C handle only calls [Wire.begin]: whatever
    chip-select argument is passed, no pin is configured or driven and the
    SPI side of the device is left alone.  With a mode that is neither
    enumerator the constructor initialises nothing at all. *)
Theorem ctor_i2c_touches_no_pin (s : State) (csPin raw : Z) :
  emitted s (exec (ADXL345_ctor ADXL345_COMM_I2C csPin) s) = [EvWireBegin] /\
  pins (hw (exec (ADXL345_ctor ADXL345_COMM_I2C csPin) s)) = pins (hw s) /\
  spi_phase (hw (exec (ADXL345_ctor ADXL345_COMM_I2C csPin) s)) =
    spi_phase (hw s) /\
  hw (exec (ADXL345_ctor (ADXL345_COMM_other raw) csPin) s) = hw s.
Proof.
  destruct s as [o w]. unfold emitted, exec. rewrite ctor_i2c_run.
  cbn [snd hw]. split; [apply drop_app_length |].
  split; [reflexivity |]. split; [reflexivity |].
  enter_ctor. reflexivity.
Qed.

(** ** Operations on a handle with an unsupported mode *)

(** X3: when the stored mode is neither enumerator, [writeReg] and
    [readRegs] (even with a valid buffer) do nothing at all: no bus event,
    no register or RAM change, and nothing tells the caller. *)
Theorem write_and_burst_read_unsupported_mode (s : State)
    (regAddr data pBuffer size : Z) :
  communicationType (this s) <> ADXL345_COMM_I2C ->
  communicationType (this s) <> ADXL345_COMM_SPI ->
  writeReg regAddr data s = (tt, s) /\
  readRegs regAddr pBuffer size s = (tt, s).
Proof.
  intros Hi Hs. destruct s as [[ct cs] w]. cbn in Hi, Hs.
  destruct ct; try congruence. split.
  - reflexivity.
  - unfold readRegs. destruct (pBuffer =? NULL); reflexivity.
Qed.

Lemma write_and_burst_read_unsupported_mode_witness :
  writeReg 0x2D 0x08 (constructed (ADXL345_COMM_other 2) 10 ∅ ∅ 0) =
    (tt, constructed (ADXL345_COMM_other 2) 10 ∅ ∅ 0) /\
  readRegs 0x2D 0x200 6 (constructed (ADXL345_COMM_other 2) 10 ∅ ∅ 0) =
    (tt, constructed (ADXL345_COMM_other 2) 10 ∅ ∅ 0).
Proof.
  apply (write_and_burst_read_unsupported_mode
           (constructed (ADXL345_COMM_other 2) 10 ∅ ∅ 0) 0x2D 0x08 0x200 6);
    cbn; discriminate.
Defined.

(** ** Bus records of the SPI write and of the SPI burst read *)

Lemma writeReg_spi_bus (s : State) (regAddr data : Z) :
  communicationType (this s) = ADXL345_COMM_SPI ->
  bus (hw (exec (writeReg regAddr data) s)) =
    bus (hw s) ++
    [EvPin (u8 (_csPin (this s))) LOW; EvSpi (u8 regAddr); EvSpi (u8 data);
     EvPin (u8 (_csPin (this s))) HIGH].
Proof.
  intros Hm. in_mode s Hm. run_method. board.
  rewrite <- !app_assoc. reflexivity.
Qed.

(** X4: in SPI mode, whatever state the board is in, [writeReg] lowers the
    stored chip-select line, shifts out exactly two bytes, the register
    address as given (its bit 7 is not cleared) and then the value, and
    raises the same line again. *)
Theorem writeReg_spi_transaction (s : State) (regAddr data : Z) :
  communicationType (this s) = ADXL345_COMM_SPI ->
  is_u8 regAddr -> is_u8 data ->
  emitted s (exec (writeReg regAddr data) s) =
    [EvPin (u8 (_csPin (this s))) LOW; EvSpi regAddr; EvSpi data;
     EvPin (u8 (_csPin (this s))) HIGH].
Proof.
  intros Hm Ha Hd.
  rewrite (emitted_app _ _ _ (writeReg_spi_bus s regAddr data Hm)).
  rewrite (u8_small regAddr Ha), (u8_small data Hd). reflexivity.
Qed.

Lemma writeReg_spi_transaction_witness :
  emitted (constructed ADXL345_COMM_SPI 10 ∅ ∅ 0)
          (exec (writeReg 0x2D 0x08) (constructed ADXL345_COMM_SPI 10 ∅ ∅ 0)) =
    [EvPin (u8 (_csPin (this (constructed ADXL345_COMM_SPI 10 ∅ ∅ 0)))) LOW;
     EvSpi 0x2D; EvSpi 0x08;
     EvPin (u8 (_csPin (this (constructed ADXL345_COMM_SPI 10 ∅ ∅ 0)))) HIGH].
Proof.
  apply (writeReg_spi_transaction (constructed ADXL345_COMM_SPI 10 ∅ ∅ 0)
           0x2D 0x08).
  - reflexivity.
  - unfold is_u8. lia.
  - unfold is_u8. lia.
Defined.

(** X5: in SPI mode with a non-null buffer, whatever state the board is
    in, [readRegs] lowers the stored chip-select line, shifts out one
    command byte followed by exactly [size] zero bytes, and raises the same
    line again: [size + 1] transfers inside one chip-select frame. *)
Theorem readRegs_spi_transaction (s : State) (regAddr pBuffer size : Z) :
  communicationType (this s) = ADXL345_COMM_SPI ->
  pBuffer <> NULL ->
  is_u8 regAddr -> is_u8 size ->
  exists c,
    emitted s (exec (readRegs regAddr pBuffer size) s) =
      [EvPin (u8 (_csPin (this s))) LOW; EvSpi c] ++
      repeat (EvSpi 0) (Z.to_nat size) ++
      [EvPin (u8 (_csPin (this s))) HIGH] /\
    c = (if 1 <? size then Z.lor (Z.lor 0x80 regAddr) 0x40
         else Z.lor 0x80 regAddr) /\
    spi_transfers (emitted s (exec (readRegs regAddr pBuffer size) s)) =
      S (Z.to_nat size).
Proof.
  intros Hm Hp Ha Hn.
  rewrite (emitted_app _ _ _ (readRegs_spi_bus s regAddr pBuffer size Hm Hp)).
  rewrite (read_address_u8 regAddr Ha), (burst_address_u8 regAddr Ha).
  eexists. split; [reflexivity |]. split; [reflexivity |].
  cbn [app spi_transfers]. f_equal.
  induction (Z.to_nat size) as [| n IH]; cbn [repeat app spi_transfers].
  - reflexivity.
  - rewrite IH. reflexivity.
Qed.

Lemma readRegs_spi_transaction_witness :
  exists c,
    emitted (constructed ADXL345_COMM_SPI 10 ∅ ∅ 0)
            (exec (readRegs 0x32 0x200 6) (constructed ADXL345_COMM_SPI 10 ∅ ∅ 0)) =
      [EvPin (u8 (_csPin (this (constructed ADXL345_COMM_SPI 10 ∅ ∅ 0)))) LOW;
       EvSpi c] ++
      repeat (EvSpi 0) (Z.to_nat 6) ++
      [EvPin (u8 (_csPin (this (constructed ADXL345_COMM_SPI 10 ∅ ∅ 0)))) HIGH] /\
    c = (if 1 <? 6 then Z.lor (Z.lor 0x80 0x32) 0x40 else Z.lor 0x80 0x32) /\
    spi_transfers
      (emitted (constructed ADXL345_COMM_SPI 10 ∅ ∅ 0)
         (exec (readRegs 0x32 0x200 6) (constructed ADXL345_COMM_SPI 10 ∅ ∅ 0))) =
      S (Z.to_nat 6).
Proof.
  apply (readRegs_spi_transaction (constructed ADXL345_COMM_SPI 10 ∅ ∅ 0)
           0x32 0x200 6).
  - reflexivity.
  - unfold NULL. lia.
  - unfold is_u8. lia.
  - unfold is_u8. lia.
Defined.

(** ** What the operations write to RAM *)

Lemma readRegs_for_mem_out (n : nat) (p : Z) (s : State) (q : Z) :
  ~ (p <= q < p + Z.of_nat n) ->
  mem (hw (snd (readRegs_for n p s))) !! q = mem (hw s) !! q.
Proof.
  revert p s. induction n as [| n IH]; intros p s Hq; cbn [readRegs_for].
  - reflexivity.
  - unfold_monad. unfold_hal. cbn -[readRegs_for].
    rewrite IH by lia. cbn [hw mem set_mem].
    rewrite lookup_insert_ne by lia. board. reflexivity.
Qed.

(** X7: in every mode and from every state of the board, [writeReg] and
    [readReg] write nothing to RAM, and [readRegs] writes nothing outside
    the [size] bytes that start at [pBuffer]. *)
Theorem ram_written_only_in_buffer (s : State)
    (regAddr data pBuffer size q : Z) :
  is_u8 size ->
  ~ (pBuffer <= q < pBuffer + size) ->
  mem (hw (exec (writeReg regAddr data) s)) = mem (hw s) /\
  mem (hw (exec (readReg regAddr) s)) = mem (hw s) /\
  mem (hw (exec (readRegs regAddr pBuffer size) s)) !! q = mem (hw s) !! q.
Proof.
  intros Hn Hq. destruct s as [[ct cs] w]. destruct ct as [| | raw].
  - split; [run_method; board; reflexivity |].
    split; [run_method; board; reflexivity |].
    unfold exec, readRegs. destruct (pBuffer =? NULL); [reflexivity |].
    enter_method. unfold digitalWrite at 1. unfold hal at 1.
    cbn [fst snd hw mem]. board.
    rewrite readRegs_for_mem_out by (unfold is_u8 in Hn; lia).
    unfold_hal. board. reflexivity.
  - destruct w as [r ip sc ph ps ta tx rx m j b]. unfold exec.
    rewrite writeReg_i2c_run, readReg_i2c_run.
    split; [reflexivity |]. split; [reflexivity |].
    destruct (Z.eqb_spec pBuffer NULL) as [-> | Hp]; [reflexivity |].
    rewrite (readRegs_i2c_run _ _ _ _ _ _ _ _ _ _ _ _ _ _ _ Hp).
    cbn [snd hw mem]. rewrite (u8_small size Hn).
    apply poke_lookup_out. rewrite i2c_fetch_length.
    unfold is_u8 in Hn. lia.
  - split; [reflexivity |]. split; [reflexivity |].
    unfold exec, readRegs. destruct (pBuffer =? NULL); reflexivity.
Qed.

Lemma ram_written_only_in_buffer_witness :
  mem (hw (exec (writeReg 0x32 0x08)
             (constructed ADXL345_COMM_SPI 10 ∅ {[0x206 := 0x77]} 0))) =
    mem (hw (constructed ADXL345_COMM_SPI 10 ∅ {[0x206 := 0x77]} 0)) /\
  mem (hw (exec (readReg 0x32)
             (constructed ADXL345_COMM_SPI 10 ∅ {[0x206 := 0x77]} 0))) =
    mem (hw (constructed ADXL345_COMM_SPI 10 ∅ {[0x206 := 0x77]} 0)) /\
  mem (hw (exec (readRegs 0x32 0x200 6)
             (constructed ADXL345_COMM_SPI 10 ∅ {[0x206 := 0x77]} 0))) !! 0x206 =
    mem (hw (constructed ADXL345_COMM_SPI 10 ∅ {[0x206 := 0x77]} 0)) !! 0x206.
Proof.
  apply (ram_written_only_in_buffer
           (constructed ADXL345_COMM_SPI 10 ∅ {[0x206 := 0x77]} 0)
           0x32 0x08 0x200 6 0x206).
  - unfold is_u8. lia.
  - lia.
Defined.

(** X6: a [readRegs] of zero registers into a valid buffer stores nothing,
    in every mode and from every state of the board, yet it still goes on
    the bus: in I2C mode the register address is sent and zero bytes are
    requested, in SPI mode the read command is shifted out inside a
    chip-select frame with no data byte after it. *)
Theorem readRegs_zero_length (s : State) (regAddr pBuffer : Z) :
  pBuffer <> NULL ->
  is_u8 regAddr ->
  mem (hw (exec (readRegs regAddr pBuffer 0) s)) = mem (hw s) /\
  emitted s (exec (readRegs regAddr pBuffer 0) s) =
    match communicationType (this s) with
    | ADXL345_COMM_I2C =>
        [EvI2cWrite ADXL345_I2C_ADDRESS [regAddr] true;
         EvI2cRead ADXL345_I2C_ADDRESS 0 true]
    | ADXL345_COMM_SPI =>
        [EvPin (u8 (_csPin (this s))) LOW; EvSpi (Z.lor 0x80 regAddr);
         EvPin (u8 (_csPin (this s))) HIGH]
    | ADXL345_COMM_other _ => []
    end.
Proof.
  intros Hp Ha. destruct s as [[ct cs] w]. destruct ct as [| | raw].
  - split.
    + apply Z.eqb_neq in Hp. unfold exec, readRegs. rewrite Hp.
      enter_method. unfold_hal. change (Z.to_nat 0) with 0%nat.
      cbn [readRegs_for]. unfold_monad. board. reflexivity.
    + rewrite (emitted_app _ _ _
                 (readRegs_spi_bus (mkState (mkADXL345 ADXL345_COMM_SPI cs) w)
                    regAddr pBuffer 0 eq_refl Hp)).
      cbn. rewrite (read_address_u8 regAddr Ha). reflexivity.
  - destruct w as [r ip sc ph ps ta tx rx m j b]. unfold emitted, exec.
    rewrite (readRegs_i2c_run _ _ _ _ _ _ _ _ _ _ _ _ _ _ _ Hp).
    cbn [snd hw mem bus this communicationType].
    rewrite drop_app_length, (u8_small regAddr Ha). split; reflexivity.
  - apply Z.eqb_neq in Hp. unfold emitted, exec, readRegs. rewrite Hp.
    cbn. rewrite drop_all. split; reflexivity.
Qed.

Lemma readRegs_zero_length_witness :
  mem (hw (exec (readRegs 0x32 0x200 0) (constructed ADXL345_COMM_I2C 0 ∅ ∅ 0))) =
    mem (hw (constructed ADXL345_COMM_I2C 0 ∅ ∅ 0)) /\
  emitted (constructed ADXL345_COMM_I2C 0 ∅ ∅ 0)
          (exec (readRegs 0x32 0x200 0) (constructed ADXL345_COMM_I2C 0 ∅ ∅ 0)) =
    match communicationType (this (constructed ADXL345_COMM_I2C 0 ∅ ∅ 0)) with
    | ADXL345_COMM_I2C =>
        [EvI2cWrite ADXL345_I2C_ADDRESS [0x32] true;
         EvI2cRead ADXL345_I2C_ADDRESS 0 true]
    | ADXL345_COMM_SPI =>
        [EvPin (u8 (_csPin (this (constructed ADXL345_COMM_I2C 0 ∅ ∅ 0)))) LOW;
         EvSpi (Z.lor 0x80 0x32);
         EvPin (u8 (_csPin (this (constructed ADXL345_COMM_I2C 0 ∅ ∅ 0)))) HIGH]
    | ADXL345_COMM_other _ => []
    end.
Proof.
  apply (readRegs_zero_length (constructed ADXL345_COMM_I2C 0 ∅ ∅ 0) 0x32 0x200).
  - unfold NULL. lia.
  - unfold is_u8. lia.
Defined.

(** ** Each handle stays on its own bus *)

Lemma forallb_spi_repeat (n : nat) : forallb spi_event (repeat (EvSpi 0) n) = true.
Proof. induction n as [| n IH]; [reflexivity | exact IH]. Qed.

Lemma exec_then_ret {A : Type} (m : M A) (s : State) :
  exec (m;; mret tt) s = exec m s.
Proof. reflexivity. Qed.

Lemma readRegs_null_bus (s : State) (a n : Z) :
  bus (hw (exec (readRegs a NULL n) s)) = bus (hw s) ++ [].
Proof. rewrite app_nil_r. reflexivity. Qed.

Lemma run_op_events_spi (o : Op) (cs : Z) (w : World) :
  exists evs,
    bus (hw (exec (run_op o) (mkState (mkADXL345 ADXL345_COMM_SPI cs) w))) =
      bus w ++ evs /\
    forallb spi_event evs = true.
Proof.
  destruct o as [a v | a | a p n]; cbn [run_op].
  - eexists. split;
      [exact (writeReg_spi_bus (mkState (mkADXL345 ADXL345_COMM_SPI cs) w)
                a v eq_refl) | reflexivity].
  - rewrite exec_then_ret. eexists. split;
      [exact (readReg_spi_bus (mkState (mkADXL345 ADXL345_COMM_SPI cs) w)
                a eq_refl) | reflexivity].
  - destruct (Z.eqb_spec p NULL) as [-> | Hp].
    + exists []. split; [apply readRegs_null_bus | reflexivity].
    + eexists. split;
        [exact (readRegs_spi_bus (mkState (mkADXL345 ADXL345_COMM_SPI cs) w)
                  a p n eq_refl Hp) |].
      cbn [app forallb spi_event andb].
      rewrite forallb_app, forallb_spi_repeat. reflexivity.
Qed.

Lemma run_op_events_i2c (o : Op) (cs : Z) (w : World) :
  exists evs,
    bus (hw (exec (run_op o) (mkState (mkADXL345 ADXL345_COMM_I2C cs) w))) =
      bus w ++ evs /\
    forallb i2c_event evs = true.
Proof.
  destruct w as [r ip sc ph ps ta tx rx m j b].
  destruct o as [a v | a | a p n]; cbn [run_op].
  - unfold exec. rewrite writeReg_i2c_run. cbn [snd hw bus].
    eexists. split; reflexivity.
  - rewrite exec_then_ret. unfold exec. rewrite readReg_i2c_run.
    cbn [snd hw bus]. eexists. split; reflexivity.
  - destruct (Z.eqb_spec p NULL) as [-> | Hp].
    + exists []. split; [apply readRegs_null_bus | reflexivity].
    + unfold exec.
      rewrite (readRegs_i2c_run _ _ _ _ _ _ _ _ _ _ _ _ _ _ _ Hp).
      cbn [snd hw bus]. eexists. split; reflexivity.
Qed.

Lemma run_op_other (o : Op) (raw cs : Z) (w : World) :
  exec (run_op o) (mkState (mkADXL345 (ADXL345_COMM_other raw) cs) w) =
  mkState (mkADXL345 (ADXL345_COMM_other raw) cs) w.
Proof.
  destruct o as [a v | a | a p n]; cbn [run_op].
  - reflexivity.
  - reflexivity.
  - unfold exec, readRegs. destruct (p =? NULL); reflexivity.
Qed.

Lemma run_op_events (o : Op) (s : State) :
  exists evs,
    bus (hw (exec (run_op o) s)) = bus (hw s) ++ evs /\
    forallb (allowed_event (communicationType (this s))) evs = true.
Proof.
  destruct s as [[ct cs] w]. destruct ct as [| | raw];
    cbn [this hw communicationType allowed_event].
  - apply run_op_events_spi.
  - apply run_op_events_i2c.
  - rewrite run_op_other. exists []. split; [| reflexivity].
    cbn [hw]. symmetry. apply app_nil_r.
Qed.

Lemma keeps_this_run_op (o : Op) : keeps_this (run_op o).
Proof.
  destruct o; cbn [run_op].
  - apply keeps_this_writeReg.
  - apply keeps_this_bind; [apply keeps_this_readReg |].
    intros ?. apply keeps_this_ret.
  - apply keeps_this_readRegs.
Qed.

(** X8: whatever sequence of [writeReg], [readReg] and [readRegs] calls is
    made on a handle, and from whatever state, an I2C handle only ever
    issues I2C transactions addressed to 0x53, an SPI handle only drives
    pins and shifts SPI bytes, and a handle of any other mode puts nothing
    on the board. *)
Theorem operations_stay_on_their_bus (os : list Op) (s : State) :
  forallb (allowed_event (communicationType (this s)))
          (emitted s (exec (run_ops os) s)) = true.
Proof.
  assert (H : exists evs,
             bus (hw (exec (run_ops os) s)) = bus (hw s) ++ evs /\
             forallb (allowed_event (communicationType (this s))) evs = true).
  { revert s. induction os as [| o os IH]; intros s.
    - exists []. split; [cbn; symmetry; apply app_nil_r | reflexivity].
    - destruct (run_op_events o s) as (e1 & Hb1 & Ha1).
      destruct (IH (exec (run_op o) s)) as (e2 & Hb2 & Ha2).
      unfold exec in Ha2. rewrite (keeps_this_run_op o s) in Ha2.
      exists (e1 ++ e2). split.
      + change (exec (run_ops (o :: os)) s)
          with (exec (run_ops os) (exec (run_op o) s)).
        rewrite Hb2, Hb1, app_assoc. reflexivity.
      + rewrite forallb_app, Ha1, Ha2. reflexivity. }
  destruct H as (evs & Hb & Ha).
  rewrite (emitted_app _ _ _ Hb). exact Ha.
Qed.

(** ** The register file seen through the driver *)

Lemma mod64_u8 (x : Z) : u8 x mod 64 = x mod 64.
Proof.
  unfold u8. change 256 with (64 * 4). rewrite Z.rem_mul_r by lia.
  rewrite (Z.mul_comm 64), Z_mod_plus_full. apply Z.mod_mod. lia.
Qed.

Lemma reg_get_insert_ne (r : gmap Z Z) (a b v : Z) :
  a <> b -> reg_get (<[a := v]> r) b = reg_get r b.
Proof. intros H. unfold reg_get. rewrite lookup_insert_ne by exact H. reflexivity. Qed.

(** The register an SPI single read selects. *)
Lemma spi_read_register (a : Z) :
  is_u8 a -> Z.land (u8 (Z.lor 0x80 a)) 0x3F = a mod 64.
Proof.
  intros Ha. rewrite (read_address_u8 a Ha), land63_read. apply land63_mod.
Qed.

(** X13: [readReg] returns the content of the addressed register and
    changes no register: register [regAddr] in I2C mode, from any state of
    the board; register [regAddr mod 64] in SPI mode started with the
    device deselected on the handle's chip-select line. *)
Theorem readReg_returns_register (s : State) (regAddr W : Z) :
  is_u8 regAddr ->
  (communicationType (this s) = ADXL345_COMM_I2C /\ W = 256) \/
  (communicationType (this s) = ADXL345_COMM_SPI /\ spi_idle s /\ W = 64) ->
  eval (readReg regAddr) s = reg_get (regs (hw s)) (regAddr mod W) /\
  regs (hw (exec (readReg regAddr) s)) = regs (hw s).
Proof.
  intros Ha H. destruct s as [[ct cs] [r ip sc ph ps ta tx rx m j b]].
  unfold eval, exec.
  destruct H as [[Hm HW] | (Hm & [Hcs Hph] & HW)]; cbn in Hm; subst ct W.
  - rewrite readReg_i2c_run. cbn [fst snd hw regs].
    split; [reflexivity | reflexivity].
  - cbn in Hcs, Hph. subst sc ph. rewrite readReg_spi_run.
    cbn [fst snd hw regs]. rewrite (spi_read_register regAddr Ha).
    split; reflexivity.
Qed.

Lemma readReg_returns_register_witness :
  eval (readReg 0x72) (constructed ADXL345_COMM_SPI 10 {[0x32 := 0x11]} ∅ 0) =
    reg_get (regs (hw (constructed ADXL345_COMM_SPI 10 {[0x32 := 0x11]} ∅ 0)))
      (0x72 mod 64) /\
  regs (hw (exec (readReg 0x72)
              (constructed ADXL345_COMM_SPI 10 {[0x32 := 0x11]} ∅ 0))) =
  regs (hw (constructed ADXL345_COMM_SPI 10 {[0x32 := 0x11]} ∅ 0)).
Proof.
  apply (readReg_returns_register
           (constructed ADXL345_COMM_SPI 10 {[0x32 := 0x11]} ∅ 0) 0x72 64).
  - unfold is_u8. lia.
  - right. split; [reflexivity |]. split; [split; reflexivity | reflexivity].
Defined.

(** X9: a write leaves every other register readable as before: reading
    [b] after writing [a] returns what reading [b] returned before the
    write, in I2C mode when [a] and [b] differ, and in SPI mode (device
    deselected at the start) when they differ modulo 64. *)
Theorem writeReg_leaves_other_registers (s : State) (a b data : Z) :
  is_u8 a -> is_u8 b ->
  (communicationType (this s) = ADXL345_COMM_I2C /\ a <> b) \/
  (communicationType (this s) = ADXL345_COMM_SPI /\ spi_idle s /\
   a mod 64 <> b mod 64) ->
  eval (readReg b) (exec (writeReg a data) s) = eval (readReg b) s.
Proof.
  intros Ha Hb H. destruct s as [[ct cs] [r ip sc ph ps ta tx rx m j bs]].
  unfold eval, exec.
  destruct H as [[Hm Hne] | (Hm & [Hcs Hph] & Hne)]; cbn in Hm; subst ct.
  - rewrite writeReg_i2c_run. cbn [snd]. rewrite !readReg_i2c_run.
    cbn [fst]. rewrite (u8_small a Ha), (u8_small b Hb).
    apply reg_get_insert_ne, Hne.
  - cbn in Hcs, Hph. subst sc ph.
    rewrite writeReg_spi_run. cbn [snd]. rewrite !readReg_spi_run.
    cbn [fst]. rewrite (spi_read_register b Hb).
    destruct (Z.testbit (u8 a) 7); [reflexivity |].
    apply reg_get_insert_ne.
    rewrite (u8_small a Ha), land63_mod. exact Hne.
Qed.

Lemma writeReg_leaves_other_registers_witness :
  eval (readReg 0x32)
       (exec (writeReg 0x2D 0x08)
          (constructed ADXL345_COMM_SPI 10 {[0x32 := 0x11]} ∅ 0)) =
  eval (readReg 0x32) (constructed ADXL345_COMM_SPI 10 {[0x32 := 0x11]} ∅ 0).
Proof.
  apply (writeReg_leaves_other_registers
           (constructed ADXL345_COMM_SPI 10 {[0x32 := 0x11]} ∅ 0) 0x2D 0x32 0x08).
  - unfold is_u8. lia.
  - unfold is_u8. lia.
  - right. split; [reflexivity |]. split; [split; reflexivity |].
    vm_compute. discriminate.
Defined.

(** X14: in SPI mode bit 6 of a register address does not select a
    register: a value written to [a + 0x40] is read back from [a], and a
    value written to [a] is read back from [a + 0x40], for every [a] below
    0x40 (device deselected at the start). *)
Theorem spi_bit6_aliases_register (s : State) (a data : Z) :
  communicationType (this s) = ADXL345_COMM_SPI ->
  spi_idle s ->
  0 <= a < 0x40 -> is_u8 data ->
  eval (readReg a) (exec (writeReg (a + 0x40) data) s) = data /\
  eval (readReg (a + 0x40)) (exec (writeReg a data) s) = data.
Proof.
  intros Hm [Hcs Hph] Ha Hd.
  destruct s as [[ct cs] [r ip sc ph ps ta tx rx m j bs]].
  cbn in Hm, Hcs, Hph. subst ct sc ph. unfold eval, exec.
  assert (Ha8 : is_u8 a) by (unfold is_u8; lia).
  assert (Hb8 : is_u8 (a + 64)) by (unfold is_u8; lia).
  assert (Hal : (a + 64) mod 64 = a mod 64).
  { replace (a + 64) with (a + 1 * 64) by lia. apply Z.mod_add. lia. }
  rewrite !writeReg_spi_run. cbn [snd]. rewrite !readReg_spi_run. cbn [fst].
  rewrite (spi_read_register a Ha8), (spi_read_register (a + 64) Hb8).
  rewrite (u8_small a Ha8), (u8_small (a + 64) Hb8).
  rewrite (testbit7_small a), (testbit7_small (a + 64)) by lia.
  rewrite !land63_mod, Hal, !reg_get_insert, u8_idem, (u8_small data Hd).
  split; reflexivity.
Qed.

Lemma spi_bit6_aliases_register_witness :
  eval (readReg 0x2D)
       (exec (writeReg (0x2D + 0x40) 0x08) (constructed ADXL345_COMM_SPI 10 ∅ ∅ 0))
    = 0x08 /\
  eval (readReg (0x2D + 0x40))
       (exec (writeReg 0x2D 0x08) (constructed ADXL345_COMM_SPI 10 ∅ ∅ 0))
    = 0x08.
Proof.
  apply (spi_bit6_aliases_register (constructed ADXL345_COMM_SPI 10 ∅ ∅ 0)
           0x2D 0x08).
  - reflexivity.
  - split; reflexivity.
  - lia.
  - unfold is_u8. lia.
Defined.

(** ** Chip-select between operations *)

Lemma writeReg_keeps_spi_idle (s : State) (a v : Z) :
  communicationType (this s) = ADXL345_COMM_SPI ->
  spi_idle s -> spi_idle (exec (writeReg a v) s).
Proof.
  intros Hm [Hcs Hph]. destruct s as [[ct cs] [r ip sc ph ps ta tx rx m j b]].
  cbn in Hm, Hcs, Hph. subst ct sc ph. unfold exec.
  rewrite writeReg_spi_run. split; reflexivity.
Qed.

Lemma readRegs_keeps_spi_idle (s : State) (a p n : Z) :
  communicationType (this s) = ADXL345_COMM_SPI ->
  spi_idle s -> spi_idle (exec (readRegs a p n) s).
Proof.
  intros Hm Hidle. destruct (Z.eqb_spec p NULL) as [-> | Hp]; [exact Hidle |].
  destruct Hidle as [Hcs Hph].
  destruct s as [[ct cs] [r ip sc ph ps ta tx rx m j b]].
  cbn in Hm, Hcs, Hph. subst ct sc ph. unfold exec.
  rewrite (readRegs_spi_run _ _ _ _ _ _ _ _ _ _ _ _ _ Hp).
  split; reflexivity.
Qed.

(** X10: in SPI mode every sequence of [writeReg] and [readRegs] calls
    (with or without a buffer) that starts with the device deselected ends
    with the device deselected and changes neither the wiring nor the
    handle: each of the two operations closes the chip-select frame it
    opens. *)
Theorem writes_and_burst_reads_keep_device_deselected (os : list Op) (s : State) :
  communicationType (this s) = ADXL345_COMM_SPI ->
  spi_idle s ->
  no_readReg os = true ->
  spi_idle (exec (run_ops os) s) /\ this (exec (run_ops os) s) = this s.
Proof.
  revert s. induction os as [| o os IH]; intros s Hm Hidle Hno.
  - split; [exact Hidle | reflexivity].
  - cbn [no_readReg forallb] in Hno. apply andb_prop in Hno as [Ho Hno].
    change (exec (run_ops (o :: os)) s)
      with (exec (run_ops os) (exec (run_op o) s)).
    assert (Hthis : this (exec (run_op o) s) = this s)
      by apply keeps_this_run_op.
    destruct (IH (exec (run_op o) s)) as [Hi Ht].
    + rewrite Hthis. exact Hm.
    + destruct o as [a v | a | a p n]; cbn [run_op].
      * apply writeReg_keeps_spi_idle; assumption.
      * discriminate Ho.
      * apply readRegs_keeps_spi_idle; assumption.
    + exact Hno.
    + split; [exact Hi | rewrite Ht; exact Hthis].
Qed.

Lemma writes_and_burst_reads_keep_device_deselected_witness :
  spi_idle (exec (run_ops [OpWriteReg 0x2D 0x08; OpReadRegs 0x32 0x200 6])
              (constructed ADXL345_COMM_SPI 10 ∅ ∅ 0)) /\
  this (exec (run_ops [OpWriteReg 0x2D 0x08; OpReadRegs 0x32 0x200 6])
          (constructed ADXL345_COMM_SPI 10 ∅ ∅ 0)) =
  this (constructed ADXL345_COMM_SPI 10 ∅ ∅ 0).
Proof.
  apply (writes_and_burst_reads_keep_device_deselected
           [OpWriteReg 0x2D 0x08; OpReadRegs 0x32 0x200 6]
           (constructed ADXL345_COMM_SPI 10 ∅ ∅ 0)).
  - reflexivity.
  - split; reflexivity.
  - reflexivity.
Defined.

(** X11: the last write wins: after two writes to the same register,
    [readReg] returns the second value, in I2C mode for every address and
    in SPI mode for every address below 0x80 (device deselected at the
    start). *)
Theorem last_write_wins (s : State) (regAddr v1 v2 : Z) :
  is_u8 regAddr -> is_u8 v2 ->
  communicationType (this s) = ADXL345_COMM_I2C \/
  (communicationType (this s) = ADXL345_COMM_SPI /\ spi_idle s /\ regAddr < 0x80) ->
  eval (readReg regAddr)
       (exec (writeReg regAddr v2) (exec (writeReg regAddr v1) s)) = v2.
Proof.
  intros Ha Hv H. destruct s as [[ct cs] [r ip sc ph ps ta tx rx m j b]].
  unfold eval, exec.
  destruct H as [Hm | (Hm & [Hcs Hph] & Hlt)]; cbn in Hm; subst ct.
  - rewrite !writeReg_i2c_run. cbn [snd]. rewrite writeReg_i2c_run.
    cbn [snd]. rewrite readReg_i2c_run. cbn [fst].
    rewrite reg_get_insert, u8_idem. apply u8_small, Hv.
  - cbn in Hcs, Hph. subst sc ph.
    rewrite !writeReg_spi_run. cbn [snd]. rewrite writeReg_spi_run.
    cbn [snd]. rewrite readReg_spi_run. cbn [fst].
    rewrite (spi_read_register regAddr Ha), (u8_small regAddr Ha), land63_mod.
    rewrite (testbit7_small regAddr) by (unfold is_u8 in Ha; lia).
    rewrite reg_get_insert, u8_idem. apply u8_small, Hv.
Qed.

Lemma last_write_wins_witness :
  eval (readReg 0x2D)
       (exec (writeReg 0x2D 0x08)
          (exec (writeReg 0x2D 0x04) (constructed ADXL345_COMM_SPI 10 ∅ ∅ 0)))
    = 0x08.
Proof.
  apply (last_write_wins (constructed ADXL345_COMM_SPI 10 ∅ ∅ 0) 0x2D 0x04 0x08).
  - unfold is_u8. lia.
  - unfold is_u8. lia.
  - right. split; [reflexivity |]. split; [split; reflexivity | lia].
Defined.

(** ** Burst reads against single reads *)

Section Slots.

Variables (cs : Z) (r : gmap Z Z) (ip : Z) (ps : gmap Z Level).
Variables (ta : Z) (tx rx : list Z) (m : gmap Z Z) (j : Z) (b : list BusEvent).

Lemma readRegs_slot_i2c (sc : Z) (ph : SpiPhase) (a p size i : Z) :
  p <> NULL -> is_u8 size -> 0 <= i < size ->
  mem (hw (exec (readRegs a p size)
             (mkState (mkADXL345 ADXL345_COMM_I2C cs)
                (mkWorld r ip sc ph ps ta tx rx m j b)))) !! (p + i) =
    Some (reg_get r (u8 (a + i))).
Proof.
  intros Hp Hn Hi. unfold exec.
  rewrite (readRegs_i2c_run _ _ _ _ _ _ _ _ _ _ _ _ _ _ _ Hp).
  cbn [snd hw mem]. rewrite (u8_small size Hn).
  replace i with (Z.of_nat (Z.to_nat i)) by lia.
  erewrite poke_lookup_in by (apply i2c_fetch_lookup; lia).
  rewrite u8_reg_get. reflexivity.
Qed.

Lemma readRegs_slot_spi (a p size i : Z) :
  p <> NULL -> is_u8 a -> 0 <= i < size ->
  mem (hw (exec (readRegs a p size)
             (mkState (mkADXL345 ADXL345_COMM_SPI cs)
                (mkWorld r ip (u8 cs) SpiDeselected ps ta tx rx m j b))))
    !! (p + i) =
    Some (reg_get r ((a + i) mod 64)).
Proof.
  intros Hp Ha Hi. unfold exec.
  rewrite (readRegs_spi_run _ _ _ _ _ _ _ _ _ _ _ _ _ Hp).
  cbn [snd hw mem].
  destruct (Z.ltb_spec 1 size) as [Hlt | Hge].
  - rewrite burst_address_bit6.
    rewrite (read_address_u8 a Ha), (burst_address_u8 a Ha).
    rewrite land63_burst, land63_mod.
    replace i with (Z.of_nat (Z.to_nat i)) by lia.
    erewrite poke_lookup_in by (apply spi_fetch_lookup; lia).
    rewrite u8_reg_get. reflexivity.
  - assert (size = 1) by lia. subst size.
    assert (i = 0) by lia. subst i.
    change (Z.to_nat 1) with 1%nat. rewrite spi_fetch_one.
    rewrite (spi_read_register a Ha).
    cbn [poke]. rewrite !Z.add_0_r.
    rewrite lookup_insert_eq, u8_reg_get. reflexivity.
Qed.

End Slots.

(** X12: a burst read agrees with single reads: with a valid buffer, slot
    [i] of [readRegs regAddr pBuffer size] receives exactly what
    [readReg] of the address [regAddr + i] (wrapped to eight bits) returns
    on the same board, in I2C mode and in SPI mode (device deselected at the
    start), for every address and size. *)
Theorem readRegs_agrees_with_readReg (s : State) (regAddr pBuffer size i : Z) :
  is_u8 regAddr -> is_u8 size -> pBuffer <> NULL ->
  communicationType (this s) = ADXL345_COMM_I2C \/
  (communicationType (this s) = ADXL345_COMM_SPI /\ spi_idle s) ->
  0 <= i < size ->
  mem (hw (exec (readRegs regAddr pBuffer size) s)) !! (pBuffer + i) =
    Some (eval (readReg (u8 (regAddr + i))) s).
Proof.
  intros Ha Hn Hp H Hi.
  destruct s as [[ct cs] [r ip sc ph ps ta tx rx m j b]].
  destruct H as [Hm | (Hm & [Hcs Hph])]; cbn in Hm; subst ct.
  - rewrite (readRegs_slot_i2c _ _ _ _ _ _ _ _ _ _ _ _ _ _ _ _ Hp Hn Hi).
    unfold eval. rewrite readReg_i2c_run. cbn [fst]. rewrite u8_idem.
    reflexivity.
  - cbn in Hcs, Hph. subst sc ph.
    rewrite (readRegs_slot_spi _ _ _ _ _ _ _ _ _ _ _ _ _ _ Hp Ha Hi).
    unfold eval. rewrite readReg_spi_run. cbn [fst].
    rewrite (spi_read_register _ (u8_range (regAddr + i))), mod64_u8.
    reflexivity.
Qed.

Lemma readRegs_agrees_with_readReg_witness :
  mem (hw (exec (readRegs 0x32 0x200 6)
             (constructed ADXL345_COMM_SPI 10 {[0x33 := 0x11]} ∅ 0)))
    !! (0x200 + 1) =
    Some (eval (readReg (u8 (0x32 + 1)))
            (constructed ADXL345_COMM_SPI 10 {[0x33 := 0x11]} ∅ 0)).
Proof.
  apply (readRegs_agrees_with_readReg
           (constructed ADXL345_COMM_SPI 10 {[0x33 := 0x11]} ∅ 0) 0x32 0x200 6 1).
  - unfold is_u8. lia.
  - unfold is_u8. lia.
  - unfold NULL. lia.
  - right. split; [reflexivity | split; reflexivity].
  - lia.
Defined.

(** ** The registers the source names *)

Lemma documented_register_range (a : Z) :
  In a ADXL345_registers -> 0 <= a < 0x40.
Proof.
  intros H.
  assert (Hall : forallb (fun x => (0 <=? x) && (x <? 0x40)) ADXL345_registers
                 = true) by reflexivity.
  rewrite forallb_forall in Hall. specialize (Hall a H).
  apply andb_prop in Hall as [H0 H1]. lia.
Qed.

Lemma testbit6_small (a : Z) : 0 <= a < 64 -> Z.testbit a 6 = false.
Proof.
  intros [H0 H1].
  destruct (Z.eq_dec a 0) as [-> | Hne]; [reflexivity |].
  apply Z.bits_above_log2; [lia |].
  apply Z.log2_lt_pow2; [lia |]. exact H1.
Qed.

(** X15: for every register address the source names (the
    [ADXL345_REG_*] constants), the driver behaves as a plain register
    file in both modes: [readReg] after [writeReg] returns the written
    byte, and in SPI mode the command byte of a burst read has bit 6 set
    exactly when more than one register is read. *)
Theorem documented_registers_round_trip (s : State)
    (regAddr data pBuffer size : Z) :
  In regAddr ADXL345_registers ->
  is_u8 data -> pBuffer <> NULL ->
  communicationType (this s) = ADXL345_COMM_I2C \/
  (communicationType (this s) = ADXL345_COMM_SPI /\ spi_idle s) ->
  eval (readReg regAddr) (exec (writeReg regAddr data) s) = data /\
  (communicationType (this s) = ADXL345_COMM_SPI ->
   exists c,
     first_spi_byte (emitted s (exec (readRegs regAddr pBuffer size) s)) = Some c /\
     (Z.testbit c 6 = true <-> 1 < size)).
Proof.
  intros Hin Hd Hp H. apply documented_register_range in Hin as Hr.
  assert (Ha : is_u8 regAddr) by (unfold is_u8; lia).
  split.
  - destruct s as [[ct cs] [r ip sc ph ps ta tx rx m j b]].
    unfold eval, exec.
    destruct H as [Hm | (Hm & [Hcs Hph])]; cbn in Hm; subst ct.
    + rewrite writeReg_i2c_run. cbn [snd]. rewrite readReg_i2c_run.
      cbn [fst]. rewrite reg_get_insert, u8_idem. apply u8_small, Hd.
    + cbn in Hcs, Hph. subst sc ph.
      rewrite writeReg_spi_run. cbn [snd]. rewrite readReg_spi_run. cbn [fst].
      rewrite (spi_read_register regAddr Ha), (u8_small regAddr Ha), land63_mod.
      rewrite (testbit7_small regAddr) by lia.
      rewrite reg_get_insert, u8_idem. apply u8_small, Hd.
  - intros Hm.
    rewrite (emitted_app _ _ _ (readRegs_spi_bus s regAddr pBuffer size Hm Hp)).
    cbn [app first_spi_byte]. eexists. split; [reflexivity |].
    destruct (Z.ltb_spec 1 size) as [Hlt | Hge].
    + rewrite burst_address_bit6. tauto.
    + rewrite read_address_bit6, (testbit6_small regAddr Hr).
      split; [discriminate | lia].
Qed.

Lemma documented_registers_round_trip_witness :
  eval (readReg ADXL345_REG_POWER_CTL)
       (exec (writeReg ADXL345_REG_POWER_CTL ADXL345_BIT_PWR_REG_MEASURE)
          (constructed ADXL345_COMM_SPI 10 ∅ ∅ 0))
    = ADXL345_BIT_PWR_REG_MEASURE /\
  (communicationType (this (constructed ADXL345_COMM_SPI 10 ∅ ∅ 0))
     = ADXL345_COMM_SPI ->
   exists c,
     first_spi_byte
       (emitted (constructed ADXL345_COMM_SPI 10 ∅ ∅ 0)
          (exec (readRegs ADXL345_REG_POWER_CTL 0x200 6)
             (constructed ADXL345_COMM_SPI 10 ∅ ∅ 0))) = Some c /\
     (Z.testbit c 6 = true <-> 1 < 6)).
Proof.
  apply (documented_registers_round_trip
           (constructed ADXL345_COMM_SPI 10 ∅ ∅ 0)
           ADXL345_REG_POWER_CTL ADXL345_BIT_PWR_REG_MEASURE 0x200 6).
  - unfold ADXL345_registers. do 17 right. left. reflexivity.
  - unfold is_u8, ADXL345_BIT_PWR_REG_MEASURE. change (Z.shiftl 1 3) with 8. lia.
  - unfold NULL. lia.
  - right. split; [reflexivity | split; reflexivity].
Defined.

(** ** A write that follows a single SPI read *)

Lemma writeReg_spi_run_in_read (cs : Z) (r : gmap Z Z) (ip : Z)
    (ps : gmap Z Level) (ta : Z) (tx rx : list Z) (m : gmap Z Z) (j : Z)
    (b : list BusEvent) (mb : bool) (ptr regAddr data : Z) :
  writeReg regAddr data
    (mkState (mkADXL345 ADXL345_COMM_SPI cs)
       (mkWorld r ip (u8 cs) (SpiData true mb ptr) ps ta tx rx m j b)) =
  (tt,
   mkState (mkADXL345 ADXL345_COMM_SPI cs)
     (mkWorld r ip (u8 cs) SpiDeselected
        (<[u8 cs := HIGH]> (<[u8 cs := LOW]> ps)) ta tx rx m j
        (b ++ [EvPin (u8 cs) LOW; EvSpi (u8 regAddr); EvSpi (u8 data);
               EvPin (u8 cs) HIGH]))).
Proof. unfold writeReg. steps. rewrite <- !app_assoc. reflexivity. Qed.

(** X16: in SPI mode, when the stored chip-select line is not the
    read-encoded address, a [writeReg] issued right after a [readReg] is
    lost: the device is still inside the read that [readReg] left open, so
    no register changes, whatever address and value are written.  That
    [writeReg] does raise chip-select, so the device is deselected again
    after it. *)
Theorem writeReg_after_readReg_is_lost (s : State) (a regAddr data : Z) :
  communicationType (this s) = ADXL345_COMM_SPI ->
  spi_idle s ->
  u8 (Z.lor 0x80 a) <> u8 (_csPin (this s)) ->
  regs (hw (exec (writeReg regAddr data) (exec (readReg a) s))) = regs (hw s) /\
  spi_idle (exec (writeReg regAddr data) (exec (readReg a) s)).
Proof.
  intros Hm [Hcs Hph] Hne.
  destruct s as [[ct cs] [r ip sc ph ps ta tx rx m j b]].
  cbn in Hm, Hcs, Hph, Hne. subst ct sc ph. unfold exec.
  rewrite readReg_spi_run. cbn [snd].
  apply Z.eqb_neq in Hne. rewrite Hne.
  rewrite writeReg_spi_run_in_read.
  split; [reflexivity | split; reflexivity].
Qed.

Lemma writeReg_after_readReg_is_lost_witness :
  regs (hw (exec (writeReg 0x2D 0x08)
              (exec (readReg 0x00) (constructed ADXL345_COMM_SPI 10 ∅ ∅ 0)))) =
    regs (hw (constructed ADXL345_COMM_SPI 10 ∅ ∅ 0)) /\
  spi_idle (exec (writeReg 0x2D 0x08)
              (exec (readReg 0x00) (constructed ADXL345_COMM_SPI 10 ∅ ∅ 0))).
Proof.
  apply (writeReg_after_readReg_is_lost
           (constructed ADXL345_COMM_SPI 10 ∅ ∅ 0) 0x00 0x2D 0x08).
  - reflexivity.
  - split; reflexivity.
  - vm_compute. discriminate.
Defined.
